(** * CAS authentication middleware: a shallow embedding of
      [lib/cas-authentication.js] and the properties of its operations.

    The JavaScript of the module is embedded function by function.  Values are
    the data values the module handles (decoded XML trees, option values,
    session fields, query parameters); abrupt completion ([throw]) is an
    explicit error monad; the module-level [options] object is passed
    explicitly; the libraries the module calls (xml2js, request, the WHATWG
    URL class, express-session, the helper module) are an interface. *)

From Stdlib Require Import PrimFloat Ascii.
From stdpp Require Import base option list strings pretty gmap.

Set Warnings "-register-all".
Set Default Proof Using "Type".

(** ** The JavaScript fragment *)

Module JS.

(** Data values.  A Number is an IEEE binary64, an object is a finite map
    of its own properties, an array the list of its elements. *)
Inductive value : Type :=
  | Undefined
  | Null
  | Bool (b : bool)
  | Num (f : float)
  | Str (s : string)
  | Obj (props : gmap string value)
  | Arr (elems : list value).

(** What a [throw] carries or a promise is rejected with:
    [new Error(message)], a TypeError raised by the engine (its message is
    implementation-defined and not kept), or any data value. *)
Inductive reason : Type :=
  | ErrorNew (message : string)
  | TypeError
  | Plain (v : value).

(** Completion of an evaluation: a value, or an exception. *)
Inductive completion (A : Type) : Type :=
  | Normal (a : A)
  | Throw (r : reason).
Arguments Normal {A} a.
Arguments Throw {A} r.

#[export] Instance completion_ret : MRet completion := fun A a => Normal a.
#[export] Instance completion_bind : MBind completion := fun A B f c =>
  match c with
  | Normal a => f a
  | Throw r => Throw r
  end.

(** [try { c } catch (e) { h e }] *)
Definition try_catch {A} (c : completion A) (h : reason → completion A)
  : completion A :=
  match c with
  | Normal a => Normal a
  | Throw r => h r
  end.

(** ToBoolean: [undefined], [null], [false], [+0], [-0], [NaN] and the
    empty string are falsy, everything else is truthy. *)
Definition ToBoolean (v : value) : bool :=
  match v with
  | Undefined | Null => false
  | Bool b => b
  | Num f => negb (PrimFloat.eqb f PrimFloat.zero || negb (PrimFloat.eqb f f))
  | Str s => negb (bool_decide (s = EmptyString))
  | Obj _ | Arr _ => true
  end.

(** The engine's Number-to-string conversion is not spelled out here. *)
Class Engine := Number_toString : float → string.

(** ToString, for the data values above: objects are plain records (they
    print as [[object Object]]), arrays join their elements with a comma,
    printing [undefined] and [null] elements as nothing. *)
Fixpoint ToString `{Engine} (v : value) : string :=
  match v with
  | Undefined => "undefined"
  | Null => "null"
  | Bool true => "true"
  | Bool false => "false"
  | Num f => Number_toString f
  | Str s => s
  | Obj _ => "[object Object]"
  | Arr elems =>
      (fix join (l : list value) : string :=
         match l with
         | [] => EmptyString
         | x :: r =>
             let sx := match x with
                       | Undefined | Null => EmptyString
                       | _ => ToString x
                       end in
             match r with
             | [] => sx
             | _ :: _ => sx +:+ "," +:+ join r
             end
         end) elems
  end.

(** [a + s] with [s] a string: string concatenation after ToString. *)
Definition add_str `{Engine} (a : value) (s : string) : value :=
  Str (ToString a +:+ s).

(** [v === s] for a string literal [s]. *)
Definition strict_eq_str (v : value) (s : string) : bool :=
  match v with
  | Str t => bool_decide (t = s)
  | _ => false
  end.

(** Own properties of an object held as a map; an absent property reads as
    [undefined]. *)
Definition own (props : gmap string value) (k : string) : value :=
  default Undefined (props !! k).

(** [v.k] and [v[k]].  Reading a property of [undefined] or [null] throws a
    TypeError.  The names the module reads are never names of built-in
    members ([length], indices, prototype methods), which are left out: a
    primitive or an array has none of the properties read. *)
Definition get (v : value) (k : string) : completion value :=
  match v with
  | Undefined | Null => Throw TypeError
  | Obj props => Normal (own props k)
  | Bool _ | Num _ | Str _ | Arr _ => Normal Undefined
  end.

(** [v[k]] where [v] is known to be neither [undefined] nor [null], so that
    the read cannot throw. *)
Definition read (v : value) (k : string) : value :=
  match get v k with
  | Normal x => x
  | Throw _ => Undefined
  end.

(** [Object.keys(v)]: own enumerable property names; a TypeError on
    [undefined] and [null]; the indices of a string or an array; none for a
    number or a boolean.  The names of an object come in the order of the
    map, which need not be the order of insertion. *)
Definition Object_keys (v : value) : completion (list string) :=
  match v with
  | Undefined | Null => Throw TypeError
  | Obj props => Normal (map_to_list props).*1
  | Str s => Normal (pretty <$> seq 0 (String.length s))
  | Arr elems => Normal (pretty <$> seq 0 (length elems))
  | Bool _ | Num _ => Normal []
  end.

(** [typeof v] *)
Definition typeof (v : value) : string :=
  match v with
  | Undefined => "undefined"
  | Bool _ => "boolean"
  | Num _ => "number"
  | Str _ => "string"
  | Null | Obj _ | Arr _ => "object"
  end.

(** [[s0, s1, ...].indexOf(v)] on an array of string literals: the first
    index whose element is strictly equal to [v], or -1. *)
Fixpoint indexOf (l : list string) (v : value) : Z :=
  match l with
  | [] => -1
  | s :: r =>
      if strict_eq_str v s then 0
      else let i := indexOf r v in if bool_decide (0 ≤ i)%Z then (1 + i)%Z else -1
  end.

(** [s.endsWith(suffix)] *)
Definition endsWith (s suffix : string) : bool :=
  let n := String.length s in
  let m := String.length suffix in
  bool_decide (m ≤ n) && bool_decide (String.substring (n - m) m s = suffix).

(** [URLSearchParams.prototype.set]: the first pair named [name] takes the
    value and the other pairs of that name are removed; without such a pair
    a new one is appended. *)
Fixpoint searchParams_set (name val : string) (l : list (string * string))
  : list (string * string) :=
  match l with
  | [] => [(name, val)]
  | (n, v) :: r =>
      if bool_decide (n = name)
      then (name, val) :: filter (λ p, p.1 ≠ name) r
      else (n, v) :: searchParams_set name val r
  end.

(** [URLSearchParams.prototype.get]: the value of the first pair named
    [name]; [None] is [null]. *)
Fixpoint searchParams_get (name : string) (l : list (string * string))
  : option string :=
  match l with
  | [] => None
  | (n, v) :: r => if bool_decide (n = name) then Some v else searchParams_get name r
  end.

End JS.

Import JS.

(** ** The module [lib/cas-authentication.js] *)

(** The [options] object: a map from its own property names to the value
    each holds.  The names are those of the object literal at the top of the
    module; no statement of the module adds or deletes one. *)
Abbreviation CAS_options := (gmap string value) (only parsing).

(** The module-level [options] as the module is loaded. *)
Definition options0 : CAS_options :=
  {[ "casServer" := Null;
     "serviceUrl" := Null;
     "sessionInfo" := Str "cas_userinfo";
     "sessionName" := Str "cas_user";
     "cas_version" := Str "2.0";
     "renew" := Bool false;
     "destroy_session" := Bool false;
     "devMode" := Bool false;
     "devModeUser" := Null ]}.

(** [options.casServer] and the like. *)
Definition casServer (options : CAS_options) : value := own options "casServer".
Definition serviceUrl (options : CAS_options) : value := own options "serviceUrl".
Definition sessionInfo (options : CAS_options) : value := own options "sessionInfo".
Definition sessionName (options : CAS_options) : value := own options "sessionName".
Definition cas_version (options : CAS_options) : value := own options "cas_version".
Definition renew (options : CAS_options) : value := own options "renew".
Definition destroy_session (options : CAS_options) : value :=
  own options "destroy_session".

(** The Express request, as far as the module reads and writes it:
    [req.session] is the session object ([None] when no session middleware
    put one there, so that [req.session] is [undefined]), [req.query] the
    parsed query string, [req.originalUrl] the requested URL. *)
Record request : Type := {
  session : option (gmap string value);
  query : gmap string value;
  originalUrl : string
}.

(** What the handler does with the response: [res.redirect(target)]. *)
Inductive response : Type :=
  | Redirect (target : value).

(** A WHATWG [URL] object: everything before the path, the path, the list of
    query parameters in order, and the fragment. *)
Record URL : Type := {
  url_origin : string;
  pathname : string;
  searchParams : list (string * string);
  url_hash : string
}.

(** The argument of [request.get]. *)
Record requestOptions : Type := {
  uri : value;
  qs : gmap string value
}.

(** What xml2js hands to the callback of [parseString]: an error, or the
    decoded document. *)
Inductive parsed : Type :=
  | ParseError (err : reason)
  | Decoded (result : value).

(** What [request.get] hands to its callback: an error, or a body. *)
Inductive fetched : Type :=
  | TransportError (err : reason)
  | Body (body : string).

(** The libraries and the helper module the code calls. *)
Class Libraries : Type := {
  (** [parseXML(body, {trim, normalize, explicitArray: false,
      tagNameProcessors: [normalize, stripPrefix]}, callback)] *)
  parseXML : string → parsed;
  (** [request.get(requestOptions, callback)]; [None] is [undefined] *)
  request_get : option requestOptions → fetched;
  (** [new URL(s)]; [None] when the constructor throws *)
  URL_new : string → option URL;
  (** [url.href] *)
  URL_href : URL → string;
  (** [casHelpers.checkSession(req)] *)
  checkSession : request → completion request;
  (** [session.destroy(callback)] of express-session: what [req.session] is
      afterwards, and the error handed to the callback *)
  session_destroy : gmap string value → option (gmap string value) * value
}.

(** How a callback settles the promise it closes over. *)
Inductive settled : Type :=
  | Resolve (v : value)
  | Reject (r : reason).

(** The promise an operation returns.  [Escaped] is an exception that
    leaves the operation instead of settling the promise.  The callbacks
    run synchronously inside the executor of [new Promise], which turns what
    they throw into a rejection: [promise_of] never yields [Escaped]. *)
Inductive promise : Type :=
  | Fulfilled (v : value)
  | Rejected (r : reason)
  | Escaped (r : reason).

Definition promise_of (c : completion settled) : promise :=
  match c with
  | Normal (Resolve v) => Fulfilled v
  | Normal (Reject r) => Rejected r
  | Throw r => Rejected r
  end.

(** *** validateTicket *)

(** The callback given to [parseXML] in [validateTicket]. *)
Definition validateTicket_callback (err : option reason) (result : value)
  : completion settled :=
  match err with
  | Some _ => mret (Reject (ErrorNew "Response from CAS server was bad."))
  | None =>
      serviceresponse ← get result "serviceresponse";
      failure ← get serviceresponse "authenticationfailure";
      if ToBoolean failure then
        attrs ← get failure "$";
        code ← get attrs "code";
        description ← get failure "_";
        mret (Reject (Plain (Obj {[ "errorMessage" := Str "CAS authentication failed";
                                    "code" := code;
                                    "description" := description ]})))
      else
        serviceresponse ← get result "serviceresponse";
        success ← get serviceresponse "authenticationsuccess";
        if ToBoolean success then
          user ← get success "user";
          attributes ← get success "attributes";
          mret (Resolve (Obj {[ "user" := user; "attributes" := attributes ]}))
        else
          mret (Reject (ErrorNew "CAS authentication failed."))
  end.

Definition validateTicket `{Libraries} (body : string) : promise :=
  promise_of
    match parseXML body with
    | ParseError err => validateTicket_callback (Some err) Undefined
    | Decoded result => validateTicket_callback None result
    end.

(** *** getTicketFromLogoutRequest *)

Definition NO_VALID_CAS_LOGOUT : value :=
  Obj {[ "errorMessage" := Str "no valid CAS logout document";
         "code" := Str "NO_VALID_CAS_LOGOUT";
         "description" :=
           Str "service ticket could not be found in the XML logout document" ]}.

(** The callback given to [parseXML] in [getTicketFromLogoutRequest]. *)
Definition getTicketFromLogoutRequest_callback (err : option reason) (result : value)
  : completion settled :=
  match err with
  | Some _ => mret (Reject (ErrorNew "Response from CAS server was bad."))
  | None =>
      try_catch
        (logoutrequest ← get result "logoutrequest";
         serviceTicket ← get logoutrequest "sessionindex";
         if ToBoolean serviceTicket then
           mret (Resolve serviceTicket)
         else
           mret (Reject (Plain NO_VALID_CAS_LOGOUT)))
        (λ _, mret (Reject (ErrorNew "CAS authentication failed.")))
  end.

Definition getTicketFromLogoutRequest `{Libraries} (body : string) : promise :=
  promise_of
    match parseXML body with
    | ParseError err => getTicketFromLogoutRequest_callback (Some err) Undefined
    | Decoded result => getTicketFromLogoutRequest_callback None result
    end.

(** *** bounce_redirect and login *)

(** [req.session[k]], for a name [k] that the session object does not
    inherit from its prototypes: the own property, [undefined] without
    one. *)
Definition session_get (req : request) (k : string) : completion value :=
  match session req with
  | None => Throw TypeError
  | Some s => Normal (own s k)
  end.

(** [req.session[k] = v] *)
Definition session_set (req : request) (k : string) (v : value)
  : completion request :=
  match session req with
  | None => Throw TypeError
  | Some s => Normal {| session := Some (<[k := v]> s);
                        query := query req;
                        originalUrl := originalUrl req |}
  end.

(** The URL that [login] redirects to, from the parsed [options.casServer]:
    the path gets [login] appended, then every entry of the local [query]
    object is set on the search parameters, in the order of its keys. *)
Definition login_url `{Engine} (options : CAS_options) (casServer : URL) : URL :=
  let query : list (string * value) :=
    ("service", serviceUrl options) ::
    (if ToBoolean (renew options) then [("renew", Str "true")] else []) in
  let casServer :=
    {| url_origin := url_origin casServer;
       pathname := pathname casServer +:+
                   ((if endsWith (pathname casServer) "/" then EmptyString else "/")
                    +:+ "login");
       searchParams := searchParams casServer;
       url_hash := url_hash casServer |} in
  foldl (λ casServer '(key, val),
           {| url_origin := url_origin casServer;
              pathname := pathname casServer;
              searchParams := searchParams_set key (ToString val) (searchParams casServer);
              url_hash := url_hash casServer |})
        casServer query.

Definition login `{Engine, Libraries} (options : CAS_options) (req : request)
  : completion (request * response) :=
  req ← checkSession req;
  let returnTo := own (query req) "returnTo" in
  req ← session_set req "cas_return_to"
          (if ToBoolean returnTo then returnTo else Str (originalUrl req));
  match URL_new (ToString (casServer options)) with
  | None => Throw TypeError
  | Some casServer => mret (req, Redirect (Str (URL_href (login_url options casServer))))
  end.

Definition bounce_redirect `{Engine, Libraries} (options : CAS_options) (req : request)
  : completion (request * response) :=
  req ← checkSession req;
  user ← session_get req (ToString (sessionName options));
  if ToBoolean user then
    if ToBoolean (own (query req) "redirectTo") then
      mret (req, Redirect (own (query req) "returnTo"))
    else
      cas_return_to ← session_get req "cas_return_to";
      mret (req, Redirect cas_return_to)
  else
    login options req.

(** *** destroySession and logout *)

(** The result carries the request and what was passed to [logger.error]. *)
Definition destroySession `{Engine, Libraries} (options : CAS_options) (req : request)
  : completion (request * list value) :=
  if ToBoolean (destroy_session options) then
    match session req with
    | None => Throw TypeError
    | Some s =>
        let '(s', err) := session_destroy s in
        mret ({| session := s'; query := query req; originalUrl := originalUrl req |},
              if ToBoolean err then [err] else [])
    end
  else
    match session req with
    | None => Throw TypeError
    | Some s =>
        let s := delete (ToString (sessionName options)) s in
        let s := if ToBoolean (sessionInfo options)
                 then delete (ToString (sessionInfo options)) s
                 else s in
        mret ({| session := Some s; query := query req; originalUrl := originalUrl req |},
              [])
    end.

Definition logout `{Engine, Libraries} (options : CAS_options) (req : request)
  : completion (request * list value * response) :=
  '(req, logged) ← destroySession options req;
  mret (req, logged, Redirect (add_str (casServer options) "/logout")).

(** *** handleTicketAjax *)

(** The result carries what is passed to [request.get] and the promise
    returned. *)
Definition handleTicketAjax `{Engine, Libraries} (options : CAS_options)
    (ticket serviceUrl : value) : option requestOptions * promise :=
  let requestOptions :=
    if bool_decide (0 ≤ indexOf ["1.0"; "2.0"; "3.0"] (cas_version options))%Z then
      Some {| uri := add_str (casServer options)
                       (if strict_eq_str (cas_version options) "3.0"
                        then "/p3/serviceValidate"
                        else "/serviceValidate");
              qs := {[ "service" := serviceUrl; "ticket" := ticket ]} |}
    else None in
  (requestOptions,
   match request_get requestOptions with
   | TransportError err => Rejected err
   | Body body => validateTicket body
   end).

(** *** setOptions, setServiceUrl, init *)

Definition dquote : string := String (Ascii.ascii_of_nat 34) EmptyString.

(** The result carries the module-level [options] as the call leaves it,
    also when the call throws. *)
Definition setOptions `{Engine} (options : CAS_options) (_options : value)
  : CAS_options * completion () :=
  (* the test reads the module-level [options], not the argument *)
  if negb (ToBoolean (Obj options)) || negb (bool_decide (typeof (Obj options) = "object"))
  then
    (options,
     Throw (ErrorNew "CAS Authentication was not given a valid configuration object."))
  else
    match Object_keys _options with
    | Throw r => (options, Throw r)
    | Normal keys =>
        let options :=
          foldl (λ options option,
                   if bool_decide (is_Some (options !! option))
                   then <[option := read _options option]> options
                   else options)
                options keys in
        (options,
         if negb (ToBoolean (casServer options)) then
           Throw (ErrorNew "CAS Authentication requires a casServer parameter.")
         else if negb (strict_eq_str (cas_version options) "2.0")
                 && negb (strict_eq_str (cas_version options) "3.0") then
           Throw (ErrorNew ("The supplied CAS version (" +:+ dquote +:+
                            ToString (cas_version options) +:+ dquote +:+
                            ") is not supported."))
         else Normal ())
    end.

Definition setServiceUrl (options : CAS_options) (serviceUrl : value) : CAS_options :=
  <["serviceUrl" := serviceUrl]> options.

Definition init `{Engine} (options : CAS_options) (_options : value)
  : CAS_options * completion () :=
  setOptions options _options.

(** ** A host for the closed examples

    The engine prints every Number as [NaN] (no example converts a Number);
    xml2js is a table of three documents with their decodings under the
    options the module passes; the URL class knows one CAS server and
    serialises without escaping; the session check demands a session; the
    session store fails on [destroy]. *)
Module Sample.

Definition engine : Engine := λ _, "NaN".

Definition both_elements : string :=
  "<cas:serviceResponse><cas:authenticationFailure code='INVALID_TICKET'>Ticket ST-1 not recognized</cas:authenticationFailure><cas:authenticationSuccess><cas:user>alice</cas:user></cas:authenticationSuccess></cas:serviceResponse>".

Definition failure_attrs : gmap string value :=
  {[ "code" := Str "INVALID_TICKET" ]}.

Definition failure_element : gmap string value :=
  {[ "$" := Obj failure_attrs; "_" := Str "Ticket ST-1 not recognized" ]}.

Definition both_elements_response : gmap string value :=
  {[ "authenticationfailure" := Obj failure_element;
     "authenticationsuccess" := Obj {[ "user" := Str "alice" ]} ]}.

Definition both_elements_decoded : gmap string value :=
  {[ "serviceresponse" := Obj both_elements_response ]}.

Definition logout_request : string :=
  "<samlp:LogoutRequest><samlp:SessionIndex>ST-123</samlp:SessionIndex></samlp:LogoutRequest>".

Definition logout_request_decoded : gmap string value :=
  {[ "logoutrequest" := Obj {[ "sessionindex" := Str "ST-123" ]} ]}.

Definition foreign_root : string := "<foo/>".

Definition foreign_root_decoded : gmap string value :=
  {[ "foo" := Str EmptyString ]}.

Definition cas_base : string := "https://cas.example.org/cas".

Definition cas_url : URL :=
  {| url_origin := "https://cas.example.org"; pathname := "/cas";
     searchParams := []; url_hash := EmptyString |}.

Definition href (u : URL) : string :=
  url_origin u +:+ pathname u +:+
  match searchParams u with
  | [] => EmptyString
  | p :: r =>
      "?" +:+ p.1 +:+ "=" +:+ p.2 +:+
      foldr (λ q acc, "&" +:+ q.1 +:+ "=" +:+ q.2 +:+ acc) EmptyString r
  end +:+ url_hash u.

Definition libraries : Libraries := {|
  parseXML body :=
    if bool_decide (body = both_elements) then Decoded (Obj both_elements_decoded)
    else if bool_decide (body = logout_request)
    then Decoded (Obj logout_request_decoded)
    else if bool_decide (body = foreign_root) then Decoded (Obj foreign_root_decoded)
    else ParseError (ErrorNew "Non-whitespace before first tag.");
  request_get _ := TransportError (ErrorNew "connect ECONNREFUSED");
  URL_new s :=
    if bool_decide (s = cas_base)
    then Some {| url_origin := "https://cas.example.org"; pathname := "/cas";
                 searchParams := []; url_hash := EmptyString |}
    else None;
  URL_href := href;
  checkSession req :=
    match session req with
    | Some _ => Normal req
    | None => Throw (ErrorNew "no session")
    end;
  session_destroy _ := (None, Str "store unavailable")
|}.

Definition configured : CAS_options :=
  <["casServer" := Str cas_base]>
    (<["serviceUrl" := Str "https://app.example.org/"]> options0).

Definition authenticated : request := {|
  session := Some {[ "cas_user" := Str "alice";
                     "cas_userinfo" := Obj {[ "mail" := Str "alice@example.org" ]};
                     "cas_return_to" := Str "/inbox";
                     "theme" := Str "dark" ]};
  query := {[ "redirectTo" := Str "/reports" ]};
  originalUrl := "/cas/login?redirectTo=/reports"
|}.

Definition anonymous : request := {|
  session := Some {[ "theme" := Str "dark" ]};
  query := ∅;
  originalUrl := "/inbox"
|}.

End Sample.

(** ** The module [index.js] *)

Module Index.

(** The request as [index.js] reads it: the part [lib/cas-authentication.js]
    reads, [req.protocol], and [req.get("host")] ([undefined] without a
    [Host] header). *)
Record http_request : Type := {
  express : request;
  protocol : value;
  host : value
}.

(** The module-level [devMode] object. *)
Record devMode_state : Type := {
  enabled : value;
  user : value;
  info : value
}.

Definition devMode0 : devMode_state :=
  {| enabled := Bool false; user := Null; info := Null |}.

(** What [./lib/cas-helper-functions] and [URLSearchParams] provide. *)
Class Helpers : Type := {
  (** [casHelpers.registerOptions(_options)] *)
  registerOptions : value → completion value;
  (** [casHelpers.init(_options)] *)
  helpers_init : value → completion ();
  (** [casHelpers.getUrlPathToSelf(prefix, path)] *)
  getUrlPathToSelf : value → string → completion value;
  (** [params.toString()] *)
  URLSearchParams_toString : list (string * string) → string
}.

(** [init]; the result carries the module-level [devMode] as the call
    leaves it. *)
Definition init `{Helpers} (devMode : devMode_state) (_options : value)
  : devMode_state * completion () :=
  match registerOptions _options with
  | Throw r => (devMode, Throw r)
  | Normal options =>
      match get options "logger" with
      | Throw r => (devMode, Throw r)
      | Normal _ =>
          let devMode :=
            if ToBoolean (read options "devMode") then
              {| enabled := Bool true;
                 user := read options "devModeUser";
                 info := read options "devModeInfo" |}
            else devMode in
          (devMode, helpers_init _options)
      end
  end.

(** [s.replace(/(?<!:)\/\//g, "/")]: from left to right, every two slashes
    that do not follow a colon become one; the search goes on after the
    pair, and what precedes is looked up in the string as it was. *)
Fixpoint replace_double_slash (before : option ascii) (s : string) : string :=
  match s with
  | EmptyString => EmptyString
  | String c r =>
      match r with
      | EmptyString => String c EmptyString
      | String c' r' =>
          if bool_decide (c = "/"%char) && bool_decide (c' = "/"%char)
             && negb (bool_decide (before = Some ":"%char))
          then String "/" (replace_double_slash (Some c') r')
          else String c (replace_double_slash (Some c) r)
      end
  end.

Definition getAbsoluteUrl `{Engine} (backendBaseUrl : value) (req : http_request)
  : value :=
  if ToBoolean backendBaseUrl then
    Str (replace_double_slash None
           (ToString backendBaseUrl +:+ originalUrl (express req)))
  else
    Str (ToString (protocol req) +:+ "://" +:+ ToString (host req)
         +:+ originalUrl (express req)).

(** What a handler ends with: the call of [next], [res.end()], or
    [res.redirect(target)]. *)
Inductive handled : Type :=
  | Next
  | End_
  | Redirected (target : value).

(** [req.session && req.session[options.sessionName]], as a condition; the
    session-user key is read as an own property, which is what the code
    reads for a name that the session object does not inherit. *)
Definition session_user (options : gmap string value) `{Engine} (req : request)
  : option value :=
  match session req with
  | None => None
  | Some s =>
      let user := own s (ToString (own options "sessionName")) in
      if ToBoolean user then Some user else None
  end.

(** [casHandler(req, res, next)], with [options] the helper module's
    [options] object and [next] what the continuation ends with. *)
Definition casHandler `{Engine, Helpers} (options : gmap string value)
    (req : http_request) (next : handled) : completion handled :=
  match session_user options (express req) with
  | Some _ => Normal next
  | None =>
      let params :=
        [("target", ToString (getAbsoluteUrl (own options "backendBaseUrl") req))] in
      path ← getUrlPathToSelf (own options "casRouterPrefix") "login";
      mret (Redirected (Str (ToString path +:+ "?" +:+ URLSearchParams_toString params)))
  end.

Definition getSessionInfo `{Engine} (options : gmap string value) (req : request)
  : value :=
  match session_user options req with
  | Some userId =>
      Obj {[ "userId" := userId;
             "userInfo" := match session req with
                           | Some s => own s (ToString (own options "sessionInfo"))
                           | None => Undefined
                           end ]}
  | None => Obj {[ "userId" := Null ]}
  end.

Definition ensureSession `{Engine, Helpers} (options : gmap string value)
    (req : http_request) : completion handled :=
  casHandler options req End_.

(** A string with two slashes in a row that do not follow a colon, given
    the character before the string. *)
Fixpoint doubled_slash (before : option ascii) (s : string) : bool :=
  match s with
  | EmptyString => false
  | String c r =>
      match r with
      | EmptyString => false
      | String c' _ =>
          (bool_decide (c = "/"%char) && bool_decide (c' = "/"%char)
           && negb (bool_decide (before = Some ":"%char)))
          || doubled_slash (Some c) r
      end
  end.

End Index.

(** ** A second host for closed examples

    As the first, with a validation response that holds a success element
    with attributes, a [request.get] that answers with it, a session check
    that lets every request through, and helpers that register the options
    as they are and mount the router at [/cas]. *)
Module Fixture.

Definition success : string :=
  "<cas:serviceResponse><cas:authenticationSuccess><cas:user>bob</cas:user><cas:attributes><cas:email>bob@x.com</cas:email></cas:attributes></cas:authenticationSuccess></cas:serviceResponse>".

Definition success_element : value :=
  Obj {[ "user" := Str "bob"; "attributes" := Obj {[ "email" := Str "bob@x.com" ]} ]}.

Definition success_response : gmap string value :=
  {[ "authenticationsuccess" := success_element ]}.

Definition success_decoded : gmap string value :=
  {[ "serviceresponse" := Obj success_response ]}.

Definition libraries : Libraries := {|
  parseXML body :=
    if bool_decide (body = success) then Decoded (Obj success_decoded)
    else @parseXML Sample.libraries body;
  request_get _ := Body success;
  URL_new := @URL_new Sample.libraries;
  URL_href := Sample.href;
  checkSession req := Normal req;
  session_destroy := @session_destroy Sample.libraries
|}.

Definition helpers : Index.Helpers := {|
  Index.registerOptions _options := Normal _options;
  Index.helpers_init _ := Normal ();
  Index.getUrlPathToSelf prefix path := Normal (Str ("/cas/" +:+ path));
  Index.URLSearchParams_toString params :=
    match params with
    | [] => EmptyString
    | p :: r =>
        p.1 +:+ "=" +:+ p.2 +:+
        foldr (λ q acc, "&" +:+ q.1 +:+ "=" +:+ q.2 +:+ acc) EmptyString r
    end
|}.

Definition no_session : request :=
  {| session := None; query := ∅; originalUrl := "/inbox" |}.

Definition deep_link : request :=
  {| session := Some {[ "theme" := Str "dark" ]};
     query := {[ "returnTo" := Str "/reports/7" ]};
     originalUrl := "/cas/login?returnTo=/reports/7" |}.

Definition returning : request :=
  {| session := Some (<["cas_user" := Str "bob"]>
                        (<["cas_return_to" := Str "/reports/7"]>
                           {[ "theme" := Str "dark" ]}));
     query := ∅;
     originalUrl := "/cas/login" |}.

Definition rejected_props : gmap string value :=
  {[ "casServer" := Str Sample.cas_base; "cas_version" := Str "1.0" ]}.

End Fixture.

(** ** A third host for closed examples

    As the first, with a validation response whose failure element is empty
    and stands beside a success element, with the blank body, which xml2js
    decodes to [null], and with a CAS server URL that carries a [renew]
    parameter of its own. *)
Module Edge.

Definition empty_failure : string :=
  "<cas:serviceResponse><cas:authenticationFailure/><cas:authenticationSuccess><cas:user>alice</cas:user></cas:authenticationSuccess></cas:serviceResponse>".

Definition empty_failure_response : gmap string value :=
  {[ "authenticationfailure" := Str EmptyString;
     "authenticationsuccess" := Obj {[ "user" := Str "alice" ]} ]}.

Definition empty_failure_decoded : gmap string value :=
  {[ "serviceresponse" := Obj empty_failure_response ]}.

Definition renew_base : string := "https://cas.example.org/cas?renew=false".

Definition renew_url : URL :=
  {| url_origin := "https://cas.example.org"; pathname := "/cas";
     searchParams := [("renew", "false")]; url_hash := EmptyString |}.

Definition libraries : Libraries := {|
  parseXML body :=
    if bool_decide (body = empty_failure) then Decoded (Obj empty_failure_decoded)
    else if bool_decide (body = EmptyString) then Decoded Null
    else @parseXML Sample.libraries body;
  request_get := @request_get Sample.libraries;
  URL_new s :=
    if bool_decide (s = renew_base) then Some renew_url
    else @URL_new Sample.libraries s;
  URL_href := Sample.href;
  checkSession := @checkSession Sample.libraries;
  session_destroy := @session_destroy Sample.libraries
|}.


End Edge.

(** ** Properties *)

(** *** Strings *)

Lemma string_app_inj_l (p s t : string) : p +:+ s = p +:+ t → s = t.
Proof.
  induction p as [|c p IH]; simpl; [done|].
  intros Heq. apply IH. by injection Heq.
Qed.

(** *** Property reads *)

Lemma own_Some (props : gmap string value) (k : string) (v : value) :
  props !! k = Some v → own props k = v.
Proof. unfold own. by intros ->. Qed.

Lemma own_None (props : gmap string value) (k : string) :
  props !! k = None → own props k = Undefined.
Proof. unfold own. by intros ->. Qed.

(** *** Promises *)

Lemma promise_of_Fulfilled (c : completion settled) (v : value) :
  promise_of c = Fulfilled v ↔ c = Normal (Resolve v).
Proof.
  destruct c as [[w|r]|r]; simpl; split; intros Heq; by simplify_eq.
Qed.

(** The callback of [getTicketFromLogoutRequest] never lets an exception
    out: its body sits in a [try]. *)
Lemma getTicketFromLogoutRequest_callback_total (err : option reason) (result : value) :
  ∃ s, getTicketFromLogoutRequest_callback err result = Normal s.
Proof.
  unfold getTicketFromLogoutRequest_callback.
  destruct err as [e|]; [by eexists|].
  destruct (get result "logoutrequest") as [root|r] eqn:Hroot; simpl; [|by eexists].
  destruct (get root "sessionindex") as [t|r] eqn:Ht; simpl; [|by eexists].
  destruct (ToBoolean t); by eexists.
Qed.

(** *** validateTicket *)

Lemma validateTicket_malformed `{Libraries} (body : string) (err : reason) :
  parseXML body = ParseError err →
  validateTicket body = Rejected (ErrorNew "Response from CAS server was bad.").
Proof. unfold validateTicket. by intros ->. Qed.

(** With a [serviceresponse] root that holds neither element (or holds them
    empty), the promise is rejected with the generic error. *)
Lemma validateTicket_neither `{Libraries} (body : string)
    (document : gmap string value) (response : value) :
  parseXML body = Decoded (Obj document) →
  document !! "serviceresponse" = Some response →
  response ≠ Undefined → response ≠ Null →
  ToBoolean (read response "authenticationfailure") = false →
  ToBoolean (read response "authenticationsuccess") = false →
  validateTicket body = Rejected (ErrorNew "CAS authentication failed.").
Proof.
  intros Hparse Hroot Hu Hn Hfail Hsucc.
  unfold validateTicket. rewrite Hparse. unfold validateTicket_callback.
  simpl. rewrite (own_Some _ _ _ Hroot). simpl.
  unfold read in Hfail, Hsucc.
  destruct (get response "authenticationfailure") as [f|] eqn:Hf;
    [|by destruct response].
  simpl. rewrite Hfail.
  destruct (get response "authenticationsuccess") as [s|] eqn:Hs;
    [|by destruct response].
  simpl. by rewrite Hsucc.
Qed.

(** Without a truthy authentication-failure element, a truthy
    authentication-success element fulfils the promise with its [user] and
    its [attributes], [undefined] when it has none. *)
Lemma validateTicket_success `{Libraries} (body : string)
    (document response : gmap string value) (success : value) :
  parseXML body = Decoded (Obj document) →
  document !! "serviceresponse" = Some (Obj response) →
  ToBoolean (own response "authenticationfailure") = false →
  response !! "authenticationsuccess" = Some success →
  ToBoolean success = true →
  validateTicket body
  = Fulfilled (Obj {[ "user" := read success "user";
                      "attributes" := read success "attributes" ]}).
Proof.
  intros Hparse Hroot Hfail Hsucc Htrue.
  unfold validateTicket. rewrite Hparse. unfold validateTicket_callback.
  simpl. rewrite (own_Some _ _ _ Hroot). simpl. rewrite Hfail.
  rewrite (own_Some _ _ _ Hsucc). rewrite Htrue.
  unfold read. by destruct success.
Qed.

(** C1, as stated, fails for a failure element that is empty and has no
    attribute: it decodes to the empty string, the test [if (failure)] reads
    it as absent, and the success element beside it fulfils the promise. *)
Lemma validateTicket_empty_failure_counterexample :
  @parseXML Edge.libraries Edge.empty_failure = Decoded (Obj Edge.empty_failure_decoded)
  ∧ Edge.empty_failure_decoded !! "serviceresponse"
    = Some (Obj Edge.empty_failure_response)
  ∧ Edge.empty_failure_response !! "authenticationfailure" = Some (Str EmptyString)
  ∧ @validateTicket Edge.libraries Edge.empty_failure
    = Fulfilled (Obj {[ "user" := Str "alice"; "attributes" := Undefined ]}).
Proof. by vm_compute. Qed.

(** C1, amended.  When the decoded validation response holds an
    authentication-failure element that carries attributes (it then decodes
    to an object that holds them under [$]), [validateTicket] rejects with
    the failure whose code is that element's [code] attribute and whose
    description is its text, whatever else the response holds, an
    authentication-success element included; it is never fulfilled. *)
Theorem validateTicket_failure_precedence `{Libraries} (body : string)
    (document response failure attrs : gmap string value) :
  parseXML body = Decoded (Obj document) →
  document !! "serviceresponse" = Some (Obj response) →
  response !! "authenticationfailure" = Some (Obj failure) →
  failure !! "$" = Some (Obj attrs) →
  validateTicket body =
    Rejected (Plain (Obj {[ "errorMessage" := Str "CAS authentication failed";
                            "code" := own attrs "code";
                            "description" := own failure "_" ]}))
  ∧ ∀ v, validateTicket body ≠ Fulfilled v.
Proof.
  intros Hparse Hroot Hfail Hattrs.
  assert (validateTicket body =
    Rejected (Plain (Obj {[ "errorMessage" := Str "CAS authentication failed";
                            "code" := own attrs "code";
                            "description" := own failure "_" ]}))) as Heq.
  { unfold validateTicket. rewrite Hparse. unfold validateTicket_callback.
    simpl. rewrite (own_Some _ _ _ Hroot). simpl.
    rewrite (own_Some _ _ _ Hfail). simpl.
    by rewrite (own_Some _ _ _ Hattrs). }
  split; [done|]. intros v. by rewrite Heq.
Qed.

Lemma validateTicket_failure_precedence_witness :
  @validateTicket Sample.libraries Sample.both_elements =
    Rejected (Plain (Obj {[ "errorMessage" := Str "CAS authentication failed";
                            "code" := own Sample.failure_attrs "code";
                            "description" := own Sample.failure_element "_" ]}))
  ∧ ∀ v, @validateTicket Sample.libraries Sample.both_elements ≠ Fulfilled v.
Proof.
  apply (@validateTicket_failure_precedence Sample.libraries Sample.both_elements
           Sample.both_elements_decoded Sample.both_elements_response
           Sample.failure_element Sample.failure_attrs);
    vm_compute; reflexivity.
Defined.

(** C7.  A body that decodes to a document whose root is not
    [serviceresponse], and a blank body, which decodes to [null], make the
    callback of [validateTicket] throw a TypeError at
    [result.serviceresponse.authenticationfailure].  The promise is then
    rejected with that TypeError and not with the generic error; nothing is
    thrown past the operation. *)
Theorem validateTicket_foreign_root `{Libraries} (body : string) (result : value) :
  parseXML body = Decoded result →
  result = Null
  ∨ (∃ document, result = Obj document ∧ document !! "serviceresponse" = None) →
  validateTicket body = Rejected TypeError
  ∧ validateTicket body ≠ Rejected (ErrorNew "CAS authentication failed.")
  ∧ ∀ r, validateTicket body ≠ Escaped r.
Proof.
  intros Hparse Hroot.
  assert (validateTicket body = Rejected TypeError) as Heq.
  { unfold validateTicket. rewrite Hparse. unfold validateTicket_callback.
    destruct Hroot as [->|(document & -> & Hroot)]; [done|].
    simpl. by rewrite (own_None _ _ Hroot). }
  rewrite Heq. by repeat split.
Qed.

Lemma validateTicket_foreign_root_witness :
  @validateTicket Sample.libraries Sample.foreign_root = Rejected TypeError
  ∧ @validateTicket Sample.libraries Sample.foreign_root
    ≠ Rejected (ErrorNew "CAS authentication failed.")
  ∧ ∀ r, @validateTicket Sample.libraries Sample.foreign_root ≠ Escaped r.
Proof.
  apply (@validateTicket_foreign_root Sample.libraries Sample.foreign_root
           (Obj Sample.foreign_root_decoded)).
  - vm_compute. reflexivity.
  - right. exists Sample.foreign_root_decoded. split; reflexivity.
Defined.

(** The blank body, in the third host. *)
Example validateTicket_blank_body :
  @parseXML Edge.libraries EmptyString = Decoded Null
  ∧ @validateTicket Edge.libraries EmptyString = Rejected TypeError.
Proof. by vm_compute. Qed.

(** *** getTicketFromLogoutRequest *)

(** C2, as stated, fails where the root is missing: the TypeError of
    [result.logoutrequest.sessionindex] is caught and the promise rejected
    with the generic error, not with [NO_VALID_CAS_LOGOUT]. *)
Lemma getTicketFromLogoutRequest_missing_root_counterexample :
  @parseXML Sample.libraries Sample.foreign_root = Decoded (Obj Sample.foreign_root_decoded)
  ∧ Sample.foreign_root_decoded !! "logoutrequest" = None
  ∧ @getTicketFromLogoutRequest Sample.libraries Sample.foreign_root
    = Rejected (ErrorNew "CAS authentication failed.")
  ∧ @getTicketFromLogoutRequest Sample.libraries Sample.foreign_root
    ≠ Rejected (Plain NO_VALID_CAS_LOGOUT).
Proof. by vm_compute. Qed.

(** C2, amended.  For a document that decodes to [document]:
    with a [logoutrequest] root holding a non-empty [sessionindex], the
    promise is fulfilled with that value as it is; with a [logoutrequest]
    root whose [sessionindex] is missing or empty, it is rejected with
    [NO_VALID_CAS_LOGOUT]; without a [logoutrequest] root, it is rejected with
    the generic error [CAS authentication failed.].  A document that does not
    parse is rejected with yet another error, and no exception leaves the
    callback. *)
Theorem getTicketFromLogoutRequest_outcomes `{Libraries} (body : string)
    (document : gmap string value) :
  parseXML body = Decoded (Obj document) →
  (∀ root ticket, document !! "logoutrequest" = Some (Obj root) →
     root !! "sessionindex" = Some ticket → ToBoolean ticket = true →
     getTicketFromLogoutRequest body = Fulfilled ticket)
  ∧ (∀ root, document !! "logoutrequest" = Some root →
       root ≠ Undefined → root ≠ Null →
       ToBoolean (read root "sessionindex") = false →
       getTicketFromLogoutRequest body = Rejected (Plain NO_VALID_CAS_LOGOUT))
  ∧ (document !! "logoutrequest" = None →
       getTicketFromLogoutRequest body = Rejected (ErrorNew "CAS authentication failed."))
  ∧ (∀ r, getTicketFromLogoutRequest body ≠ Escaped r)
  ∧ (∀ other err, parseXML other = ParseError err →
       getTicketFromLogoutRequest other
       = Rejected (ErrorNew "Response from CAS server was bad.")).
Proof.
  intros Hparse. unfold getTicketFromLogoutRequest.
  repeat split.
  - intros root ticket Hroot Hticket Htrue. rewrite Hparse.
    unfold getTicketFromLogoutRequest_callback. simpl.
    rewrite (own_Some _ _ _ Hroot). simpl.
    rewrite (own_Some _ _ _ Hticket). simpl. by rewrite Htrue.
  - intros root Hroot Hu Hn Hfalse. rewrite Hparse.
    unfold getTicketFromLogoutRequest_callback. simpl.
    rewrite (own_Some _ _ _ Hroot). simpl.
    unfold read in Hfalse.
    destruct (get root "sessionindex") as [t|] eqn:Ht; [|by destruct root].
    simpl. by rewrite Hfalse.
  - intros Hroot. rewrite Hparse.
    unfold getTicketFromLogoutRequest_callback. simpl.
    by rewrite (own_None _ _ Hroot).
  - intros r. rewrite Hparse.
    destruct (getTicketFromLogoutRequest_callback_total None (Obj document))
      as [[v|e] ->]; done.
  - intros other err ->. done.
Qed.

Lemma getTicketFromLogoutRequest_outcomes_witness :
  @getTicketFromLogoutRequest Sample.libraries Sample.logout_request
  = Fulfilled (Str "ST-123").
Proof.
  apply (proj1 (@getTicketFromLogoutRequest_outcomes Sample.libraries
                  Sample.logout_request Sample.logout_request_decoded eq_refl)
           {[ "sessionindex" := Str "ST-123" ]});
    vm_compute; reflexivity.
Defined.

(** *** handleTicketAjax *)

(** C3.  With the protocol version one of 1.0, 2.0 and 3.0,
    [handleTicketAjax] calls [request.get] with the URI made of
    [options.casServer] followed by [/p3/serviceValidate] exactly when the
    version is 3.0, and by [/serviceValidate] otherwise, and with a query
    string object that has the two properties [service] and [ticket],
    holding the arguments, and no other; the promise it returns is settled
    by what that call delivers: rejected with its error, or else as
    [validateTicket] settles on its body. *)
Theorem handleTicketAjax_endpoint `{Engine, Libraries} (options : CAS_options)
    (version : string) (ticket serviceUrl : value) :
  cas_version options = Str version →
  version = "1.0" ∨ version = "2.0" ∨ version = "3.0" →
  ∃ r, (handleTicketAjax options ticket serviceUrl).1 = Some r
    ∧ (handleTicketAjax options ticket serviceUrl).2
      = match request_get (Some r) with
        | TransportError err => Rejected err
        | Body body => validateTicket body
        end
    ∧ (uri r = add_str (casServer options) "/p3/serviceValidate" ↔ version = "3.0")
    ∧ (version ≠ "3.0" → uri r = add_str (casServer options) "/serviceValidate")
    ∧ qs r !! "service" = Some serviceUrl
    ∧ qs r !! "ticket" = Some ticket
    ∧ dom (qs r) = ({[ "service"; "ticket" ]} : gset string).
Proof.
  intros Hversion Hsupported.
  unfold handleTicketAjax. rewrite Hversion. simpl.
  assert (∀ a b : value, dom ({[ "service" := a; "ticket" := b ]} : gmap string value)
                         = ({[ "service"; "ticket" ]} : gset string)) as Hdom.
  { intros a b. rewrite dom_insert_L, dom_singleton_L. done. }
  destruct Hsupported as [-> | [-> | ->]]; simpl; eexists; (split; [done|]);
    simpl; repeat split; try done; try apply Hdom.
  all: unfold add_str; intros Heq; injection Heq as Heq.
  all: by apply string_app_inj_l in Heq.
Qed.

Lemma handleTicketAjax_endpoint_witness :
  ∃ r, (@handleTicketAjax Sample.engine Sample.libraries Sample.configured
          (Str "ST-1") (Str "https://app.example.org/")).1 = Some r
    ∧ (@handleTicketAjax Sample.engine Sample.libraries Sample.configured
         (Str "ST-1") (Str "https://app.example.org/")).2
      = match @request_get Sample.libraries (Some r) with
        | TransportError err => Rejected err
        | Body body => @validateTicket Sample.libraries body
        end
    ∧ (uri r = @add_str Sample.engine (casServer Sample.configured) "/p3/serviceValidate"
       ↔ "2.0" = "3.0")
    ∧ ("2.0" ≠ "3.0" →
       uri r = @add_str Sample.engine (casServer Sample.configured) "/serviceValidate")
    ∧ qs r !! "service" = Some (Str "https://app.example.org/")
    ∧ qs r !! "ticket" = Some (Str "ST-1")
    ∧ dom (qs r) = ({[ "service"; "ticket" ]} : gset string).
Proof.
  apply (@handleTicketAjax_endpoint Sample.engine Sample.libraries Sample.configured
           "2.0" (Str "ST-1") (Str "https://app.example.org/")).
  - vm_compute. reflexivity.
  - right. left. reflexivity.
Defined.

(** *** setOptions *)

Section assignment.
Context (_options : value).

(** The loop of [setOptions]: every name that [options] owns and that is
    among the keys takes the value read from the argument; nothing else
    changes, in whatever order the keys come. *)
Lemma forEach_lookup (keys : list string) (options : gmap string value) (j : string) :
  foldl (λ options option,
           if bool_decide (is_Some (options !! option))
           then <[option := read _options option]> options
           else options) options keys !! j
  = match options !! j with
    | None => None
    | Some x => Some (if bool_decide (j ∈ keys) then read _options j else x)
    end.
Proof.
  revert options. induction keys as [|k keys IH]; intros options; simpl.
  { by destruct (options !! j). }
  rewrite IH. clear IH.
  destruct (decide (j = k)) as [->|Hne].
  - case_bool_decide as Hk.
    + rewrite lookup_insert_eq. destruct Hk as [x ->].
      rewrite (bool_decide_eq_true_2 (k ∈ k :: keys)) by left.
      by case_bool_decide.
    + destruct (options !! k) eqn:Hl; [|done]. by destruct Hk.
  - assert ((if bool_decide (is_Some (options !! k))
             then <[k := read _options k]> options else options) !! j
            = options !! j) as ->.
    { case_bool_decide; [by rewrite lookup_insert_ne|done]. }
    destruct (options !! j); [|done].
    f_equal. rewrite (bool_decide_ext (j ∈ k :: keys) (j ∈ keys)); [done|].
    rewrite elem_of_cons. split; [by intros [?|?]|by right].
Qed.
End assignment.

(** After the loop over the keys of a mapping, each option holds the value
    the mapping supplies for it, or else the value it had. *)
Lemma forEach_mapping (props options : gmap string value) :
  foldl (λ options option,
           if bool_decide (is_Some (options !! option))
           then <[option := read (Obj props) option]> options
           else options) options (map_to_list props).*1
  = map_imap (λ j x, Some (default x (props !! j))) options.
Proof.
  apply map_eq. intros j.
  rewrite forEach_lookup, map_lookup_imap.
  destruct (options !! j) as [x|]; simpl; [|done].
  f_equal. case_bool_decide as Hj.
  - apply list_elem_of_fmap in Hj as [[j' v] [-> Hin]].
    apply elem_of_map_to_list in Hin. simpl in *.
    unfold read. simpl. by rewrite (own_Some _ _ _ Hin), Hin.
  - destruct (props !! j) as [v|] eqn:Hl; [|done].
    exfalso. apply Hj. apply list_elem_of_fmap. exists (j, v).
    split; [done|]. by apply elem_of_map_to_list.
Qed.

Lemma strict_eq_str_true (v : value) (s : string) :
  strict_eq_str v s = true ↔ v = Str s.
Proof.
  destruct v; simpl; try (split; [done|by intros ?]).
  rewrite bool_decide_eq_true. split; [by intros ->|by intros [= ->]].
Qed.

(** What a call with a mapping leaves in the module-level [options], and how
    it completes. *)
Lemma setOptions_mapping `{Engine} (options props : gmap string value) :
  setOptions options (Obj props)
  = let options := map_imap (λ j x, Some (default x (props !! j))) options in
    (options,
     if negb (ToBoolean (casServer options)) then
       Throw (ErrorNew "CAS Authentication requires a casServer parameter.")
     else if negb (strict_eq_str (cas_version options) "2.0")
             && negb (strict_eq_str (cas_version options) "3.0") then
       Throw (ErrorNew ("The supplied CAS version (" +:+ dquote +:+
                        ToString (cas_version options) +:+ dquote +:+
                        ") is not supported."))
     else Normal ()).
Proof.
  unfold setOptions. simpl. by rewrite forEach_mapping.
Qed.

(** No call adds a property to [options] or removes one. *)
Lemma setOptions_keeps_names `{Engine} (options : gmap string value) (_options : value) :
  dom (setOptions options _options).1 = dom options.
Proof.
  unfold setOptions. simpl.
  destruct (Object_keys _options) as [keys|r]; [|done]. simpl.
  apply set_eq. intros j. rewrite !elem_of_dom, forEach_lookup.
  destruct (options !! j); split; intros [? ?]; by eauto.
Qed.

(** The options after a first call with a mapping. *)
Lemma first_call_casServer (props : gmap string value) :
  casServer (map_imap (λ j x, Some (default x (props !! j))) options0)
  = default Null (props !! "casServer").
Proof. unfold casServer, own. by rewrite map_lookup_imap. Qed.

Lemma first_call_cas_version (props : gmap string value) :
  cas_version (map_imap (λ j x, Some (default x (props !! j))) options0)
  = default (Str "2.0") (props !! "cas_version").
Proof. unfold cas_version, own. by rewrite map_lookup_imap. Qed.

(** C4.  The first initialisation with a mapping that supplies a CAS
    server URL and the protocol version 1.0 throws: the test of
    [setOptions] lets 2.0 and 3.0 through and nothing else, although the
    typedef of the options lists 1.0 and [handleTicketAjax] serves it. *)
Theorem init_rejects_version_1_0 `{Engine} (props : gmap string value) (cas : value) :
  props !! "casServer" = Some cas →
  ToBoolean cas = true →
  props !! "cas_version" = Some (Str "1.0") →
  (init options0 (Obj props)).2
  = Throw (ErrorNew ("The supplied CAS version (" +:+ dquote +:+ "1.0" +:+ dquote +:+
                     ") is not supported.")).
Proof.
  intros Hcas Htrue Hversion. unfold init. rewrite setOptions_mapping. simpl.
  rewrite first_call_casServer, first_call_cas_version, Hcas, Hversion. simpl.
  by rewrite Htrue.
Qed.

Lemma init_rejects_version_1_0_witness :
  (@init Sample.engine options0 (Obj Fixture.rejected_props)).2
  = Throw (ErrorNew ("The supplied CAS version (" +:+ dquote +:+ "1.0" +:+ dquote +:+
                     ") is not supported.")).
Proof.
  apply (@init_rejects_version_1_0 Sample.engine Fixture.rejected_props
           (Str Sample.cas_base)); vm_compute; reflexivity.
Defined.

(** What the two tests of [setOptions] let through at the first call, as
    the code is: a mapping with a truthy [casServer] and either no
    [cas_version] or one of the strings 2.0 and 3.0; anything else throws an
    [Error]. *)
Theorem init_first_call `{Engine} (props : gmap string value) :
  ((init options0 (Obj props)).2 = Normal ()
   ↔ ToBoolean (own props "casServer") = true
     ∧ (props !! "cas_version" = None
        ∨ props !! "cas_version" = Some (Str "2.0")
        ∨ props !! "cas_version" = Some (Str "3.0")))
  ∧ ((init options0 (Obj props)).2 = Normal ()
     ∨ ∃ message, (init options0 (Obj props)).2 = Throw (ErrorNew message)).
Proof.
  unfold init. rewrite setOptions_mapping. simpl.
  rewrite first_call_casServer, first_call_cas_version.
  assert (ToBoolean (default Null (props !! "casServer"))
          = ToBoolean (own props "casServer")) as ->.
  { unfold own. by destruct (props !! "casServer"). }
  destruct (ToBoolean (own props "casServer")); simpl.
  2: { split; [|by eauto]. split; [done|]. by intros [? _]. }
  destruct (props !! "cas_version") as [v|] eqn:Hv; simpl.
  2: { split; [|by left]. split; [|done]. intros _. split; [done|by left]. }
  destruct (strict_eq_str v "2.0") eqn:H2; simpl.
  { apply strict_eq_str_true in H2 as ->.
    split; [|by left]. split; [|done]. intros _. split; [done|]. right. by left. }
  destruct (strict_eq_str v "3.0") eqn:H3; simpl.
  { apply strict_eq_str_true in H3 as ->.
    split; [|by left]. split; [|done]. intros _. split; [done|]. right. by right. }
  split; [|by eauto]. split; [done|].
  intros [_ [?|[[= ->]|[= ->]]]]; done.
Qed.

(** *** Unknown keys *)

(** C5, as stated, fails: a mapping with a key that [options] does not own
    is accepted, the key is skipped. *)
Lemma init_unknown_key_counterexample :
  options0 !! "cas_url" = None
  ∧ (@init Sample.engine options0
       (Obj {[ "casServer" := Str Sample.cas_base;
               "cas_url" := Str Sample.cas_base ]})).2
    = Normal ().
Proof. split; vm_compute; reflexivity. Qed.

(** C5, amended.  A key outside the names of the [options] literal is
    ignored: a mapping with such a key leaves the same options and completes
    in the same way as the mapping without it. *)
Theorem init_ignores_unknown_key `{Engine} (options props : gmap string value)
    (k : string) (v : value) :
  dom options = dom options0 →
  options0 !! k = None →
  init options (Obj (<[k := v]> props)) = init options (Obj props).
Proof.
  intros Hdom Hk. unfold init. rewrite !setOptions_mapping.
  assert (map_imap (λ j x, Some (default x (<[k := v]> props !! j))) options
          = map_imap (λ j x, Some (default x (props !! j))) options) as ->; [|done].
  apply map_eq. intros j. rewrite !map_lookup_imap.
  destruct (options !! j) as [x|] eqn:Hj; simpl; [|done].
  destruct (decide (k = j)) as [->|Hne]; [|by rewrite lookup_insert_ne].
  exfalso. apply (not_elem_of_dom options0 j); [done|].
  rewrite <- Hdom. apply elem_of_dom. by eexists.
Qed.

Lemma init_ignores_unknown_key_witness :
  @init Sample.engine options0
    (Obj (<["cas_url" := Str Sample.cas_base]> {[ "casServer" := Str Sample.cas_base ]}))
  = @init Sample.engine options0 (Obj {[ "casServer" := Str Sample.cas_base ]}).
Proof.
  apply (@init_ignores_unknown_key Sample.engine options0
           {[ "casServer" := Str Sample.cas_base ]} "cas_url" (Str Sample.cas_base));
    reflexivity.
Defined.

(** *** Arguments that are not objects *)

(** At the first call a string passes the test on the configuration object
    and is rejected only for the missing [casServer]. *)
Lemma init_string_first_call `{Engine} :
  (init options0 (Str "cas.example.org")).2
  = Throw (ErrorNew "CAS Authentication requires a casServer parameter.").
Proof. vm_compute. reflexivity. Qed.

(** C6.  Once the module is configured, a call with a number or a boolean
    for argument returns normally and leaves the options as they were: the
    test for a configuration object reads the module-level [options], not the
    argument. *)
Theorem init_non_object_argument `{Engine} (options : gmap string value)
    (_options : value) :
  typeof _options = "number" ∨ typeof _options = "boolean" →
  ToBoolean (casServer options) = true →
  cas_version options = Str "2.0" ∨ cas_version options = Str "3.0" →
  init options _options = (options, Normal ()).
Proof.
  intros Htype HcasServer Hversion. unfold init, setOptions. simpl.
  assert (Object_keys _options = Normal []) as ->.
  { destruct _options; simpl in *; destruct Htype; done. }
  simpl. rewrite HcasServer. simpl.
  by destruct Hversion as [-> | ->].
Qed.

Lemma init_non_object_argument_witness :
  @init Sample.engine
    (@init Sample.engine options0 (Obj {[ "casServer" := Str Sample.cas_base ]})).1
    (Num 42)
  = ((@init Sample.engine options0 (Obj {[ "casServer" := Str Sample.cas_base ]})).1,
     Normal ()).
Proof.
  apply (@init_non_object_argument Sample.engine
           (@init Sample.engine options0 (Obj {[ "casServer" := Str Sample.cas_base ]})).1
           (Num 42)).
  - left. reflexivity.
  - vm_compute. reflexivity.
  - left. vm_compute. reflexivity.
Defined.

(** *** login *)

Lemma searchParams_get_filter (name other : string) (l : list (string * string)) :
  other ≠ name →
  searchParams_get other (filter (λ p, p.1 ≠ name) l) = searchParams_get other l.
Proof.
  intros Hne. induction l as [|[n v] l IH]; [done|].
  rewrite filter_cons. simpl. case_decide as Hn; simpl.
  - by rewrite IH.
  - rewrite IH. case_bool_decide; [|done]. exfalso. congruence.
Qed.

Lemma searchParams_get_set_eq (name val : string) (l : list (string * string)) :
  searchParams_get name (searchParams_set name val l) = Some val.
Proof.
  induction l as [|[n v] l IH]; simpl.
  - by rewrite bool_decide_eq_true_2.
  - case_bool_decide; simpl; [by rewrite bool_decide_eq_true_2|].
    by rewrite bool_decide_eq_false_2.
Qed.

Lemma searchParams_get_set_ne (name other val : string) (l : list (string * string)) :
  other ≠ name →
  searchParams_get other (searchParams_set name val l) = searchParams_get other l.
Proof.
  intros Hne. induction l as [|[n v] l IH]; simpl.
  - by rewrite bool_decide_eq_false_2.
  - case_bool_decide as Hn; simpl.
    + subst n. rewrite !(bool_decide_eq_false_2 (name = other)) by done.
      by apply searchParams_get_filter.
    + by rewrite IH.
Qed.




(** The redirect of the example, written out. *)
Example login_redirect_sample :
  (λ c, match c with Normal (_, r) => Some r | Throw _ => None end)
    (@login Sample.engine Sample.libraries Sample.configured Sample.anonymous)
  = Some (Redirect
            (Str "https://cas.example.org/cas/login?service=https://app.example.org/")).
Proof. vm_compute. reflexivity. Qed.

(** *** logout *)

(** C9.  On a request with a session, [logout] never throws and redirects
    to [options.casServer] followed by [/logout].  With [destroy_session]
    falsy it deletes the session-user key and, when [sessionInfo] is truthy,
    the session-info key, and every other field of the session keeps its
    value; nothing is logged.  With [destroy_session] truthy the session is
    destroyed through the store, whose error, if any, goes to [logger.error]
    and nowhere else. *)
Theorem logout_session `{Engine, Libraries} (options : CAS_options)
    (req : request) (s : gmap string value) :
  session req = Some s →
  (ToBoolean (destroy_session options) = false →
   ∃ s',
     logout options req
     = Normal ({| session := Some s'; query := query req;
                  originalUrl := originalUrl req |},
               [], Redirect (add_str (casServer options) "/logout"))
     ∧ s' !! ToString (sessionName options) = None
     ∧ (ToBoolean (sessionInfo options) = true →
        s' !! ToString (sessionInfo options) = None)
     ∧ (∀ k, k ≠ ToString (sessionName options) →
          (ToBoolean (sessionInfo options) = true →
           k ≠ ToString (sessionInfo options)) →
          s' !! k = s !! k))
  ∧ (ToBoolean (destroy_session options) = true →
     logout options req
     = Normal ({| session := (session_destroy s).1; query := query req;
                  originalUrl := originalUrl req |},
               (if ToBoolean (session_destroy s).2 then [(session_destroy s).2] else []),
               Redirect (add_str (casServer options) "/logout"))).
Proof.
  intros Hsession. unfold logout, destroySession. rewrite Hsession. split.
  - intros ->. simpl.
    destruct (ToBoolean (sessionInfo options)) eqn:Hinfo; eexists; (split; [done|]).
    + repeat split.
      * destruct (decide (ToString (sessionInfo options)
                          = ToString (sessionName options))) as [->|Hne].
        { apply lookup_delete_eq. }
        rewrite lookup_delete_ne by done. apply lookup_delete_eq.
      * intros _. apply lookup_delete_eq.
      * intros k Hname Hk. specialize (Hk eq_refl).
        by rewrite !lookup_delete_ne.
    + repeat split.
      * apply lookup_delete_eq.
      * done.
      * intros k Hname _. by rewrite lookup_delete_ne.
  - intros ->. simpl. by destruct (session_destroy s) as [s' err].
Qed.

Lemma logout_session_witness :
  ∃ s',
    @logout Sample.engine Sample.libraries Sample.configured Sample.authenticated
    = Normal ({| session := Some s'; query := query Sample.authenticated;
                 originalUrl := originalUrl Sample.authenticated |},
              [], Redirect (@add_str Sample.engine (casServer Sample.configured) "/logout"))
    ∧ s' !! @ToString Sample.engine (sessionName Sample.configured) = None
    ∧ (ToBoolean (sessionInfo Sample.configured) = true →
       s' !! @ToString Sample.engine (sessionInfo Sample.configured) = None)
    ∧ (∀ k, k ≠ @ToString Sample.engine (sessionName Sample.configured) →
         (ToBoolean (sessionInfo Sample.configured) = true →
          k ≠ @ToString Sample.engine (sessionInfo Sample.configured)) →
         s' !! k
         = ({[ "cas_user" := Str "alice";
               "cas_userinfo" := Obj {[ "mail" := Str "alice@example.org" ]};
               "cas_return_to" := Str "/inbox";
               "theme" := Str "dark" ]} : gmap string value) !! k).
Proof.
  apply (proj1 (@logout_session Sample.engine Sample.libraries Sample.configured
                  Sample.authenticated _ eq_refl)).
  vm_compute. reflexivity.
Defined.

(** With the store of the example failing, the error is logged and the
    redirect goes out all the same. *)
Example logout_store_failure :
  @logout Sample.engine Sample.libraries
    (<["destroy_session" := Bool true]> Sample.configured) Sample.authenticated
  = Normal ({| session := None; query := query Sample.authenticated;
               originalUrl := originalUrl Sample.authenticated |},
            [Str "store unavailable"],
            Redirect (Str "https://cas.example.org/cas/logout")).
Proof. vm_compute. reflexivity. Qed.

(** *** bounce_redirect *)

(** C10.  On a request whose session holds a truthy session-user key,
    [bounce_redirect] redirects to the query parameter [returnTo] when the
    query parameter [redirectTo] is truthy, and to the stored
    [cas_return_to] otherwise.  So with [redirectTo] and without [returnTo]
    the target is [undefined], and the stored URL is used only without
    [redirectTo]. *)
Theorem bounce_redirect_authenticated `{Engine, Libraries} (options : CAS_options)
    (req req' : request) (s : gmap string value) :
  checkSession req = Normal req' →
  session req' = Some s →
  ToBoolean (own s (ToString (sessionName options))) = true →
  bounce_redirect options req
  = Normal (req', Redirect (if ToBoolean (own (query req') "redirectTo")
                            then own (query req') "returnTo"
                            else own s "cas_return_to"))
  ∧ (ToBoolean (own (query req') "redirectTo") = true →
     query req' !! "returnTo" = None →
     bounce_redirect options req = Normal (req', Redirect Undefined))
  ∧ (ToBoolean (own (query req') "redirectTo") = false →
     bounce_redirect options req = Normal (req', Redirect (own s "cas_return_to"))).
Proof.
  intros Hcheck Hsession Huser.
  assert (bounce_redirect options req
          = Normal (req', Redirect (if ToBoolean (own (query req') "redirectTo")
                                    then own (query req') "returnTo"
                                    else own s "cas_return_to"))) as Heq.
  { unfold bounce_redirect. rewrite Hcheck. simpl.
    unfold session_get. rewrite Hsession. simpl. rewrite Huser.
    by destruct (ToBoolean (own (query req') "redirectTo")). }
  rewrite Heq. repeat split.
  - intros -> Hnone. by rewrite (own_None _ _ Hnone).
  - by intros ->.
Qed.

Lemma bounce_redirect_authenticated_witness :
  @bounce_redirect Sample.engine Sample.libraries Sample.configured Sample.authenticated
  = Normal (Sample.authenticated, Redirect Undefined).
Proof.
  apply (proj1 (proj2 (@bounce_redirect_authenticated Sample.engine Sample.libraries
                         Sample.configured Sample.authenticated Sample.authenticated
                         _ eq_refl eq_refl eq_refl)));
    vm_compute; reflexivity.
Defined.

(** ** Further properties *)

(** *** Fulfilment of the validation promises *)

(** The callback of [validateTicket] resolves only on a decoded document
    whose [serviceresponse] holds no truthy failure element and a truthy
    success element. *)
Lemma validateTicket_callback_Resolve (err : option reason) (result v : value) :
  validateTicket_callback err result = Normal (Resolve v) →
  err = None
  ∧ ∃ document response success,
      result = Obj document
      ∧ document !! "serviceresponse" = Some (Obj response)
      ∧ ToBoolean (own response "authenticationfailure") = false
      ∧ response !! "authenticationsuccess" = Some success
      ∧ ToBoolean success = true
      ∧ v = Obj {[ "user" := read success "user";
                   "attributes" := read success "attributes" ]}.
Proof.
  unfold validateTicket_callback. destruct err as [e|]; [done|].
  intros Hres. split; [done|].
  destruct result as [| | | | |document|]; simpl in Hres; try done.
  destruct (own document "serviceresponse") as [| | | | |response|] eqn:Hroot;
    simpl in Hres; try done.
  destruct (ToBoolean (own response "authenticationfailure")) eqn:Hfail.
  { destruct (own response "authenticationfailure") as [| | | | |failure|];
      simpl in Hres; try done.
    destruct (own failure "$"); simpl in Hres; done. }
  simpl in Hres.
  destruct (ToBoolean (own response "authenticationsuccess")) eqn:Hsucc; [|done].
  exists document, response, (own response "authenticationsuccess").
  unfold own in Hroot. destruct (document !! "serviceresponse") eqn:Hd; [|done].
  simpl in Hroot. subst. repeat split; try done.
  - unfold own in Hsucc |- *.
    by destruct (response !! "authenticationsuccess").
  - unfold read.
    destruct (own response "authenticationsuccess"); simpl in *; try done;
      by injection Hres as <-.
Qed.

(** X1.  When [validateTicket] is fulfilled, the body was decoded to a
    document whose [serviceresponse] holds a truthy success element and no
    truthy failure element, and the value is that element's [user] and
    [attributes] and nothing else. *)
Theorem validateTicket_fulfilled_only `{Libraries} (body : string) (v : value) :
  validateTicket body = Fulfilled v →
  ∃ document response success,
    parseXML body = Decoded (Obj document)
    ∧ document !! "serviceresponse" = Some (Obj response)
    ∧ ToBoolean (own response "authenticationfailure") = false
    ∧ response !! "authenticationsuccess" = Some success
    ∧ ToBoolean success = true
    ∧ v = Obj {[ "user" := read success "user";
                 "attributes" := read success "attributes" ]}.
Proof.
  unfold validateTicket. intros Hful. apply promise_of_Fulfilled in Hful.
  destruct (parseXML body) as [err|result].
  - by apply validateTicket_callback_Resolve in Hful as [? _].
  - apply validateTicket_callback_Resolve in Hful
      as [_ (document & response & success & -> & Hrest)].
    by exists document, response, success.
Qed.

Lemma validateTicket_fulfilled_only_witness :
  ∃ document response success,
    @parseXML Fixture.libraries Fixture.success = Decoded (Obj document)
    ∧ document !! "serviceresponse" = Some (Obj response)
    ∧ ToBoolean (own response "authenticationfailure") = false
    ∧ response !! "authenticationsuccess" = Some success
    ∧ ToBoolean success = true
    ∧ Obj {[ "user" := Str "bob";
             "attributes" := Obj {[ "email" := Str "bob@x.com" ]} ]}
      = Obj {[ "user" := read success "user";
               "attributes" := read success "attributes" ]}.
Proof.
  apply (@validateTicket_fulfilled_only Fixture.libraries Fixture.success).
  vm_compute. reflexivity.
Defined.

(** X2.  When [getTicketFromLogoutRequest] is fulfilled, the value is the
    [sessionindex] of the [logoutrequest] root of the decoded document, and
    it is truthy: the promise is never fulfilled with an empty ticket. *)
Theorem getTicketFromLogoutRequest_fulfilled_only `{Libraries} (body : string)
    (ticket : value) :
  getTicketFromLogoutRequest body = Fulfilled ticket →
  ToBoolean ticket = true
  ∧ ∃ document root,
      parseXML body = Decoded (Obj document)
      ∧ document !! "logoutrequest" = Some (Obj root)
      ∧ root !! "sessionindex" = Some ticket.
Proof.
  unfold getTicketFromLogoutRequest. intros Hful.
  apply promise_of_Fulfilled in Hful.
  destruct (parseXML body) as [err|result]; [done|].
  unfold getTicketFromLogoutRequest_callback in Hful.
  destruct result as [| | | | |document|]; simpl in Hful; try done.
  destruct (own document "logoutrequest") as [| | | | |root|] eqn:Hroot;
    simpl in Hful; try done.
  destruct (ToBoolean (own root "sessionindex")) eqn:Htrue; simpl in Hful; [|done].
  simplify_eq. split; [done|]. exists document, root. split; [done|].
  unfold own in Hroot, Htrue |- *.
  destruct (document !! "logoutrequest"); simpl in *; [|done]. subst.
  by destruct (root !! "sessionindex").
Qed.

Lemma getTicketFromLogoutRequest_fulfilled_only_witness :
  ToBoolean (Str "ST-123") = true
  ∧ ∃ document root,
      @parseXML Sample.libraries Sample.logout_request = Decoded (Obj document)
      ∧ document !! "logoutrequest" = Some (Obj root)
      ∧ root !! "sessionindex" = Some (Str "ST-123").
Proof.
  apply (@getTicketFromLogoutRequest_fulfilled_only Sample.libraries
           Sample.logout_request (Str "ST-123")).
  vm_compute. reflexivity.
Defined.

(** *** handleTicketAjax *)

Lemma indexOf_versions (v : value) :
  (0 ≤ indexOf ["1.0"; "2.0"; "3.0"] v)%Z
  ↔ v = Str "1.0" ∨ v = Str "2.0" ∨ v = Str "3.0".
Proof.
  simpl.
  destruct (strict_eq_str v "1.0") eqn:H1.
  { apply strict_eq_str_true in H1. split; [by left|done]. }
  destruct (strict_eq_str v "2.0") eqn:H2.
  { apply strict_eq_str_true in H2. split; [by right; left|done]. }
  destruct (strict_eq_str v "3.0") eqn:H3.
  { apply strict_eq_str_true in H3. split; [by right; right|done]. }
  simpl. split; [done|].
  intros [-> | [-> | ->]]; simpl in *; done.
Qed.

(** X3.  [handleTicketAjax] hands a request description to [request.get]
    exactly when [options.cas_version] is one of the strings 1.0, 2.0 and
    3.0; with any other value (a number, say) it hands over [undefined]. *)
Theorem handleTicketAjax_request_defined `{Engine, Libraries} (options : CAS_options)
    (ticket serviceUrl : value) :
  is_Some (handleTicketAjax options ticket serviceUrl).1
  ↔ cas_version options = Str "1.0"
    ∨ cas_version options = Str "2.0"
    ∨ cas_version options = Str "3.0".
Proof.
  rewrite <- indexOf_versions. unfold handleTicketAjax. simpl.
  case_bool_decide as Hi; simpl; split; intros Hx; by eauto.
Qed.

(** X4.  When the promise of [handleTicketAjax] is fulfilled, [request.get]
    returned a body and no error, and that body decodes to a document whose
    [serviceresponse] holds a truthy success element and no truthy failure
    element. *)
Theorem handleTicketAjax_fulfilled_only `{Engine, Libraries} (options : CAS_options)
    (ticket serviceUrl v : value) :
  (handleTicketAjax options ticket serviceUrl).2 = Fulfilled v →
  ∃ body document response success,
    request_get (handleTicketAjax options ticket serviceUrl).1 = Body body
    ∧ parseXML body = Decoded (Obj document)
    ∧ document !! "serviceresponse" = Some (Obj response)
    ∧ ToBoolean (own response "authenticationfailure") = false
    ∧ response !! "authenticationsuccess" = Some success
    ∧ ToBoolean success = true
    ∧ v = Obj {[ "user" := read success "user";
                 "attributes" := read success "attributes" ]}.
Proof.
  unfold handleTicketAjax. simpl.
  destruct (request_get _) as [err|body] eqn:Hget; [done|].
  unfold validateTicket. intros Hful. apply promise_of_Fulfilled in Hful.
  exists body.
  destruct (parseXML body) as [err|result].
  - by apply validateTicket_callback_Resolve in Hful as [? _].
  - apply validateTicket_callback_Resolve in Hful
      as [_ (document & response & success & -> & Hrest)].
    by exists document, response, success.
Qed.

Lemma handleTicketAjax_fulfilled_only_witness :
  ∃ body document response success,
    @request_get Fixture.libraries
      (@handleTicketAjax Sample.engine Fixture.libraries Sample.configured
         (Str "ST-1") (Str "https://app.example.org/")).1 = Body body
    ∧ @parseXML Fixture.libraries body = Decoded (Obj document)
    ∧ document !! "serviceresponse" = Some (Obj response)
    ∧ ToBoolean (own response "authenticationfailure") = false
    ∧ response !! "authenticationsuccess" = Some success
    ∧ ToBoolean success = true
    ∧ Obj {[ "user" := Str "bob";
             "attributes" := Obj {[ "email" := Str "bob@x.com" ]} ]}
      = Obj {[ "user" := read success "user";
               "attributes" := read success "attributes" ]}.
Proof.
  apply (@handleTicketAjax_fulfilled_only Sample.engine Fixture.libraries
           Sample.configured (Str "ST-1") (Str "https://app.example.org/")).
  vm_compute. reflexivity.
Defined.

(** *** The options across calls of init *)

(** The names of the [options] literal. *)
Lemma options0_names (k : string) :
  is_Some (options0 !! k) →
  k ∈ ["casServer"; "serviceUrl"; "sessionInfo"; "sessionName"; "cas_version";
       "renew"; "destroy_session"; "devMode"; "devModeUser"].
Proof.
  intros [x Hk]. unfold options0 in Hk.
  repeat (apply lookup_insert_Some in Hk as [[<- _]|[_ Hk]];
          [by repeat first [by left | right]|]).
  apply lookup_singleton_Some in Hk as [<- _].
  by repeat first [by left | right].
Qed.

(** Decimal numerals start with a digit. *)
Lemma pretty_N_go_head (x : N) (s : string) :
  (0 < x)%N →
  ∃ c r, pretty_N_go x s = String c r ∧ 48 ≤ nat_of_ascii c ≤ 57.
Proof.
  revert s. induction (N.lt_wf_0 x) as [x _ IH]; intros s Hx.
  rewrite pretty_N_go_step by done.
  destruct (N.eq_0_gt_0_cases (x `div` 10)) as [->|Hdiv].
  - rewrite pretty_N_go_0. eexists _, _. split; [done|].
    unfold pretty_N_char. repeat case_match; vm_compute; lia.
  - apply IH; [|done]. by apply N.div_lt.
Qed.

Lemma pretty_nat_head (n : nat) :
  ∃ c r, pretty n = String c r ∧ 48 ≤ nat_of_ascii c ≤ 57.
Proof.
  unfold pretty, pretty_nat, pretty, pretty_N. case_decide as Hn.
  - eexists _, _. split; [done|]. vm_compute. lia.
  - apply pretty_N_go_head. lia.
Qed.

(** An index is not the name of an option. *)
Lemma index_not_option (options : gmap string value) (n : nat) :
  dom options = dom options0 → options !! pretty n = None.
Proof.
  intros Hdom. apply not_elem_of_dom. rewrite Hdom. intros Hin.
  apply elem_of_dom, options0_names in Hin.
  destruct (pretty_nat_head n) as (c & r & Heq & Hc). rewrite Heq in Hin.
  repeat (apply elem_of_cons in Hin as [[= -> _]|Hin]; [vm_compute in Hc; lia|]).
  by apply elem_of_nil in Hin.
Qed.

(** X5.  Only a mapping changes the options: a call of [init] with
    [undefined], [null], a boolean, a number, a string or an array leaves
    every option as it was, whether the call throws or not. *)
Theorem init_non_mapping_keeps_options `{Engine} (options : gmap string value)
    (_options : value) :
  dom options = dom options0 →
  match _options with Obj _ => False | _ => True end →
  (init options _options).1 = options.
Proof.
  intros Hdom Hkind. unfold init, setOptions. simpl.
  assert (∀ len, foldl (λ options option,
                          if bool_decide (is_Some (options !! option))
                          then <[option := read _options option]> options
                          else options) options (pretty <$> seq 0 len)
                 = options) as Hindices.
  { intros len. apply map_eq. intros j. rewrite forEach_lookup.
    destruct (options !! j) as [x|] eqn:Hj; [|done].
    f_equal. case_bool_decide as Hin; [|done]. exfalso.
    apply list_elem_of_fmap in Hin as [n [-> _]].
    by rewrite (index_not_option options n Hdom) in Hj. }
  destruct _options; simpl; try done; by rewrite Hindices.
Qed.

Lemma init_non_mapping_keeps_options_witness :
  (@init Sample.engine Sample.configured (Str "renew")).1 = Sample.configured.
Proof.
  apply (@init_non_mapping_keeps_options Sample.engine Sample.configured (Str "renew")).
  - vm_compute. reflexivity.
  - exact I.
Defined.

(** X6.  After a call of [init] with a mapping, whether it returns or
    throws, every option that the mapping supplies holds the supplied value
    and every other option holds the value it had; no other property
    exists.  The options are assigned before they are checked. *)
Theorem init_state `{Engine} (options props : gmap string value) (k : string) :
  (init options (Obj props)).1 !! k
  = (λ x, default x (props !! k)) <$> (options !! k).
Proof.
  unfold init. rewrite setOptions_mapping. simpl.
  rewrite map_lookup_imap. by destruct (options !! k).
Qed.

(** X7.  A second call of [init] with the same mapping changes nothing:
    it leaves the options of the first call and completes as the first
    did. *)
Theorem init_idempotent `{Engine} (options props : gmap string value) :
  init (init options (Obj props)).1 (Obj props) = init options (Obj props).
Proof.
  unfold init. rewrite !setOptions_mapping. simpl.
  assert (map_imap (λ j x, Some (default x (props !! j)))
            (map_imap (λ j x, Some (default x (props !! j))) options)
          = map_imap (λ j x, Some (default x (props !! j))) options) as ->; [|done].
  apply map_eq. intros j. rewrite !map_lookup_imap.
  destruct (options !! j) as [x|]; simpl; [|done].
  by destruct (props !! j).
Qed.

(** X8.  The options keep the names of the literal: neither [init], with
    any argument and any outcome, nor [setServiceUrl] adds or removes a
    property. *)
Theorem options_names_invariant `{Engine} (options : gmap string value)
    (_options serviceUrl : value) :
  dom options = dom options0 →
  dom (init options _options).1 = dom options0
  ∧ dom (setServiceUrl options serviceUrl) = dom options0.
Proof.
  intros Hdom. split.
  - unfold init. by rewrite setOptions_keeps_names.
  - unfold setServiceUrl. rewrite dom_insert_L, Hdom.
    assert ("serviceUrl" ∈ dom options0) as Hin.
    { apply elem_of_dom. by eexists. }
    set_solver.
Qed.

Lemma options_names_invariant_witness :
  dom (@init Sample.engine options0 (Obj Fixture.rejected_props)).1 = dom options0
  ∧ dom (setServiceUrl options0 (Str "https://app.example.org/")) = dom options0.
Proof.
  apply (@options_names_invariant Sample.engine options0
           (Obj Fixture.rejected_props) (Str "https://app.example.org/")).
  reflexivity.
Defined.

(** X9.  A call of [init] that throws for version 1.0 still leaves 1.0 in
    the options, and [handleTicketAjax] then works with it: it requests
    [/serviceValidate] under the supplied CAS server with the two query
    parameters. *)
Theorem init_rejected_version_stays `{Engine, Libraries} (props : gmap string value)
    (cas : value) (ticket service : value) :
  props !! "casServer" = Some cas →
  ToBoolean cas = true →
  props !! "cas_version" = Some (Str "1.0") →
  (∃ message, (init options0 (Obj props)).2 = Throw (ErrorNew message))
  ∧ (handleTicketAjax (init options0 (Obj props)).1 ticket service).1
    = Some {| uri := add_str cas "/serviceValidate";
              qs := {[ "service" := service; "ticket" := ticket ]} |}.
Proof.
  intros Hcas Htrue Hversion. unfold init. rewrite setOptions_mapping. simpl.
  split.
  - rewrite first_call_casServer, first_call_cas_version, Hcas, Hversion. simpl.
    rewrite Htrue. simpl. by eexists.
  - unfold handleTicketAjax. simpl.
    by rewrite first_call_casServer, first_call_cas_version, Hcas, Hversion.
Qed.

Lemma init_rejected_version_stays_witness :
  (∃ message,
     (@init Sample.engine options0 (Obj Fixture.rejected_props)).2
     = Throw (ErrorNew message))
  ∧ (@handleTicketAjax Sample.engine Sample.libraries
       (@init Sample.engine options0 (Obj Fixture.rejected_props)).1
       (Str "ST-1") (Str "https://app.example.org/")).1
    = Some {| uri := @add_str Sample.engine (Str Sample.cas_base) "/serviceValidate";
              qs := {[ "service" := Str "https://app.example.org/";
                       "ticket" := Str "ST-1" ]} |}.
Proof.
  apply (@init_rejected_version_stays Sample.engine Sample.libraries
           Fixture.rejected_props (Str Sample.cas_base)
           (Str "ST-1") (Str "https://app.example.org/"));
    vm_compute; reflexivity.
Defined.

(** *** The return URL and the login URL *)

Lemma string_app_assoc (a b c : string) : (a +:+ b) +:+ c = a +:+ (b +:+ c).
Proof.
  induction a as [|x a IH]; [done|].
  change (String x ((a +:+ b) +:+ c) = String x (a +:+ (b +:+ c))). by f_equal.
Qed.




(** What a call of [login] that returns was made of. *)
Lemma login_inv `{Engine, Libraries} (options : CAS_options) (req req1 : request)
    (r : response) :
  login options req = Normal (req1, r) →
  ∃ req0 s base,
    checkSession req = Normal req0
    ∧ session req0 = Some s
    ∧ URL_new (ToString (casServer options)) = Some base
    ∧ req1 = {| session :=
                  Some (<["cas_return_to" :=
                            if ToBoolean (own (query req0) "returnTo")
                            then own (query req0) "returnTo"
                            else Str (originalUrl req0)]> s);
                query := query req0;
                originalUrl := originalUrl req0 |}
    ∧ r = Redirect (Str (URL_href (login_url options base))).
Proof.
  unfold login. intros Hlogin.
  destruct (checkSession req) as [req0|] eqn:Hcheck; simpl in Hlogin; [|done].
  unfold session_set in Hlogin.
  destruct (session req0) as [s|] eqn:Hsession; simpl in Hlogin; [|done].
  destruct (URL_new (ToString (casServer options))) as [base|] eqn:Hurl; [|done].
  simpl in Hlogin. injection Hlogin as <- <-.
  by exists req0, s, base.
Qed.

(** X10.  On a request with a session and with [options.casServer] a URL,
    [login] writes one session field, [cas_return_to]: the query parameter
    [returnTo] when it is truthy, the requested URL otherwise.  Every other
    field of the session, the query and the requested URL are as the session
    check left them. *)
Theorem login_stores_return_to `{Engine, Libraries} (options : CAS_options)
    (req req' : request) (s : gmap string value) (base : URL) :
  checkSession req = Normal req' →
  session req' = Some s →
  URL_new (ToString (casServer options)) = Some base →
  ∃ target,
    login options req
    = Normal ({| session :=
                   Some (<["cas_return_to" :=
                             if ToBoolean (own (query req') "returnTo")
                             then own (query req') "returnTo"
                             else Str (originalUrl req')]> s);
                 query := query req';
                 originalUrl := originalUrl req' |},
              Redirect target).
Proof.
  intros Hcheck Hsession Hurl. unfold login. rewrite Hcheck. simpl.
  unfold session_set. rewrite Hsession. simpl. rewrite Hurl. by eexists.
Qed.

Lemma login_stores_return_to_witness :
  ∃ target,
    @login Sample.engine Fixture.libraries Sample.configured Fixture.deep_link
    = Normal ({| session :=
                   Some (<["cas_return_to" :=
                             if ToBoolean (own (query Fixture.deep_link) "returnTo")
                             then own (query Fixture.deep_link) "returnTo"
                             else Str (originalUrl Fixture.deep_link)]>
                           {[ "theme" := Str "dark" ]});
                 query := query Fixture.deep_link;
                 originalUrl := originalUrl Fixture.deep_link |},
              Redirect target).
Proof.
  apply (@login_stores_return_to Sample.engine Fixture.libraries Sample.configured
           Fixture.deep_link Fixture.deep_link {[ "theme" := Str "dark" ]}
           Sample.cas_url); vm_compute; reflexivity.
Defined.

(** X11.  The return URL makes the round trip: what [login] stored is where
    [bounce_redirect] sends a later request of the same session, once the
    session holds a user and as long as the request has no truthy
    [redirectTo] and the session-user key is not [cas_return_to] itself. *)
Theorem return_to_round_trip `{Engine, Libraries} (options : CAS_options)
    (req req1 req2 req2' : request) (r : response) (s1 : gmap string value)
    (u : value) :
  login options req = Normal (req1, r) →
  session req1 = Some s1 →
  checkSession req2 = Normal req2' →
  session req2' = Some (<[ToString (sessionName options) := u]> s1) →
  ToBoolean u = true →
  ToString (sessionName options) ≠ "cas_return_to" →
  ToBoolean (own (query req2') "redirectTo") = false →
  ∃ req0,
    checkSession req = Normal req0
    ∧ bounce_redirect options req2
      = Normal (req2', Redirect (if ToBoolean (own (query req0) "returnTo")
                                 then own (query req0) "returnTo"
                                 else Str (originalUrl req0))).
Proof.
  intros Hlogin Hs1 Hcheck2 Hs2 Hu Hkey Hquery.
  apply login_inv in Hlogin as (req0 & s & base & Hcheck & Hs & Hurl & -> & ->).
  simpl in Hs1. injection Hs1 as <-.
  exists req0. split; [done|].
  unfold bounce_redirect. rewrite Hcheck2. simpl.
  unfold session_get. rewrite Hs2. simpl.
  unfold own at 1. rewrite lookup_insert_eq. simpl. rewrite Hu, Hquery. simpl.
  unfold own at 1. rewrite lookup_insert_ne by done.
  by rewrite lookup_insert_eq.
Qed.

Lemma return_to_round_trip_witness :
  ∃ req0,
    @checkSession Fixture.libraries Fixture.deep_link = Normal req0
    ∧ @bounce_redirect Sample.engine Fixture.libraries Sample.configured
        Fixture.returning
      = Normal (Fixture.returning,
                Redirect (if ToBoolean (own (query req0) "returnTo")
                          then own (query req0) "returnTo"
                          else Str (originalUrl req0))).
Proof.
  eapply (@return_to_round_trip Sample.engine Fixture.libraries Sample.configured
            Fixture.deep_link _ Fixture.returning Fixture.returning _
            (<["cas_return_to" := Str "/reports/7"]> {[ "theme" := Str "dark" ]})
            (Str "bob")).
  - vm_compute. reflexivity.
  - reflexivity.
  - reflexivity.
  - vm_compute. reflexivity.
  - reflexivity.
  - vm_compute. discriminate.
  - vm_compute. reflexivity.
Defined.

Lemma searchParams_count_filter (name : string) (l : list (string * string)) :
  filter (λ p, p.1 = name) (filter (λ p, p.1 ≠ name) l) = [].
Proof.
  induction l as [|[n v] l IH]; [done|].
  rewrite (filter_cons (λ p, p.1 ≠ name)). simpl. case_decide as Hn; [|done].
  rewrite filter_cons. simpl. by case_decide.
Qed.

Lemma searchParams_count_filter_ne (name other : string) (l : list (string * string)) :
  other ≠ name →
  filter (λ p, p.1 = other) (filter (λ p, p.1 ≠ name) l)
  = filter (λ p, p.1 = other) l.
Proof.
  intros Hne. induction l as [|[n v] l IH]; [done|].
  rewrite (filter_cons (λ p, p.1 ≠ name)), (filter_cons (λ p, p.1 = other) (n, v)).
  simpl. case_decide as Hn.
  - rewrite filter_cons. simpl. by rewrite IH.
  - rewrite IH. case_decide; [congruence|done].
Qed.

Lemma searchParams_set_count (name val : string) (l : list (string * string)) :
  length (filter (λ p, p.1 = name) (searchParams_set name val l)) = 1.
Proof.
  induction l as [|[n v] l IH]; simpl.
  - rewrite filter_cons. simpl. by case_decide.
  - case_bool_decide as Hn.
    + rewrite filter_cons. simpl. case_decide; [|done].
      by rewrite searchParams_count_filter.
    + rewrite filter_cons. simpl. by case_decide.
Qed.

Lemma searchParams_set_count_ne (name other val : string) (l : list (string * string)) :
  other ≠ name →
  length (filter (λ p, p.1 = other) (searchParams_set name val l))
  = length (filter (λ p, p.1 = other) l).
Proof.
  intros Hne. induction l as [|[n v] l IH]; simpl.
  - rewrite filter_cons. simpl. by case_decide.
  - case_bool_decide as Hn.
    + subst n. rewrite !filter_cons. simpl.
      case_decide; [congruence|]. by rewrite searchParams_count_filter_ne.
    + rewrite !filter_cons. simpl. case_decide; simpl; by rewrite IH.
Qed.

(** X12.  Whatever query the configured CAS server URL carries, the URL
    that [login] redirects to has exactly one [service] parameter, and, when
    [options.renew] is truthy, exactly one [renew] parameter; otherwise it
    has the [renew] parameters of the configured URL. *)
Theorem login_url_parameters_once `{Engine} (options : CAS_options) (base : URL) :
  length (filter (λ p, p.1 = "service") (searchParams (login_url options base))) = 1
  ∧ length (filter (λ p, p.1 = "renew") (searchParams (login_url options base)))
    = if ToBoolean (renew options) then 1
      else length (filter (λ p, p.1 = "renew") (searchParams base)).
Proof.
  unfold login_url. destruct (ToBoolean (renew options)); simpl.
  - split.
    + rewrite searchParams_set_count_ne by done. apply searchParams_set_count.
    + apply searchParams_set_count.
  - split.
    + apply searchParams_set_count.
    + by rewrite searchParams_set_count_ne.
Qed.


(** *** setServiceUrl *)

(** X14.  [setServiceUrl] changes what [login] sends as [service] and
    nothing else: ticket validation, which takes the service URL as an
    argument, is as before, and so is every other option. *)
Theorem setServiceUrl_effect `{Engine, Libraries} (options : CAS_options)
    (url ticket service : value) (base : URL) :
  searchParams_get "service"
    (searchParams (login_url (setServiceUrl options url) base))
  = Some (ToString url)
  ∧ handleTicketAjax (setServiceUrl options url) ticket service
    = handleTicketAjax options ticket service
  ∧ delete "serviceUrl" (setServiceUrl options url) = delete "serviceUrl" options.
Proof.
  unfold setServiceUrl. repeat split.
  - unfold login_url, serviceUrl, renew, own.
    rewrite lookup_insert_eq, lookup_insert_ne by done. simpl.
    destruct (ToBoolean (default Undefined (options !! "renew"))); simpl.
    + rewrite searchParams_get_set_ne by done. apply searchParams_get_set_eq.
    + apply searchParams_get_set_eq.
  - unfold handleTicketAjax, cas_version, casServer, own.
    by rewrite !lookup_insert_ne by done.
  - apply delete_insert_eq.
Qed.

(** *** Logging out *)

(** X15.  Without a session object on the request, [logout] throws a
    TypeError, with either setting of [destroy_session], and no redirect is
    issued. *)
Theorem logout_without_session `{Engine, Libraries} (options : CAS_options)
    (req : request) :
  session req = None →
  logout options req = Throw TypeError.
Proof.
  intros Hsession. unfold logout, destroySession. rewrite Hsession.
  by destruct (ToBoolean (destroy_session options)).
Qed.

Lemma logout_without_session_witness :
  @logout Sample.engine Sample.libraries Sample.configured Fixture.no_session
  = Throw TypeError.
Proof.
  apply (@logout_without_session Sample.engine Sample.libraries Sample.configured
           Fixture.no_session).
  reflexivity.
Defined.

(** X16.  With [destroy_session] falsy, destroying the session twice is
    destroying it once: the second call finds nothing to delete, changes
    nothing and logs nothing. *)
Theorem destroySession_idempotent `{Engine, Libraries} (options : CAS_options)
    (req req1 : request) (logged : list value) :
  ToBoolean (destroy_session options) = false →
  destroySession options req = Normal (req1, logged) →
  destroySession options req1 = Normal (req1, []) ∧ logged = [].
Proof.
  intros Hflag. unfold destroySession. rewrite Hflag.
  destruct (session req) as [s|] eqn:Hsession; [|done].
  simpl. intros [= <- <-]. simpl. split; [|done].
  do 2 f_equal. f_equal. f_equal.
  destruct (ToBoolean (sessionInfo options)).
  - apply map_eq. intros j. rewrite !lookup_delete. by repeat case_decide.
  - apply map_eq. intros j. rewrite !lookup_delete. by repeat case_decide.
Qed.

Lemma destroySession_idempotent_witness :
  @destroySession Sample.engine Sample.libraries Sample.configured
    {| session := Some {[ "cas_return_to" := Str "/inbox"; "theme" := Str "dark" ]};
       query := query Sample.authenticated;
       originalUrl := originalUrl Sample.authenticated |}
  = Normal ({| session := Some {[ "cas_return_to" := Str "/inbox";
                                  "theme" := Str "dark" ]};
               query := query Sample.authenticated;
               originalUrl := originalUrl Sample.authenticated |}, [])
  ∧ ([] : list value) = [].
Proof.
  apply (@destroySession_idempotent Sample.engine Sample.libraries Sample.configured
           Sample.authenticated).
  - reflexivity.
  - vm_compute. reflexivity.
Defined.

(** *** index.js *)

(** X17.  [casHandler] calls [next] exactly when [getSessionInfo] reports
    a truthy [userId] for the request; a request without a session object
    counts as one without a user. *)
Theorem casHandler_next_iff `{Engine, Index.Helpers} (options : gmap string value)
    (req : Index.http_request) :
  Index.casHandler options req Index.Next = Normal Index.Next
  ↔ ToBoolean (read (Index.getSessionInfo options (Index.express req)) "userId")
    = true.
Proof.
  unfold Index.casHandler, Index.getSessionInfo.
  destruct (Index.session_user options (Index.express req)) as [u|] eqn:Huser.
  - unfold read. simpl. unfold own. rewrite lookup_insert_eq. simpl.
    split; [|done]. intros _.
    unfold Index.session_user in Huser.
    destruct (session (Index.express req)) as [s|]; [|done].
    destruct (ToBoolean _) eqn:Htrue in Huser; [|done]. by injection Huser as <-.
  - split; [|done].
    destruct (Index.getUrlPathToSelf _ _); simpl; done.
Qed.

(** X18.  With the session-user key [cas_user], the default, in the
    options of [lib/cas-authentication.js] and in the helper module's
    options, [getSessionInfo] reports no user for the request after a
    [logout] with [destroy_session] falsy. *)
Theorem logout_then_getSessionInfo `{Engine, Libraries} (options : CAS_options)
    (helper_options : gmap string value) (req req' : request)
    (logged : list value) (r : response) :
  ToBoolean (destroy_session options) = false →
  sessionName options = Str "cas_user" →
  own helper_options "sessionName" = Str "cas_user" →
  logout options req = Normal (req', logged, r) →
  Index.getSessionInfo helper_options req' = Obj {[ "userId" := Null ]}.
Proof.
  intros Hflag Hname Hhelper. unfold logout, destroySession. rewrite Hflag.
  destruct (session req) as [s|] eqn:Hsession; [|done].
  simpl. intros [= <- _ _].
  unfold Index.getSessionInfo, Index.session_user. simpl.
  rewrite Hname, Hhelper. simpl.
  assert (own (if ToBoolean (sessionInfo options)
               then delete (ToString (sessionInfo options)) (delete "cas_user" s)
               else delete "cas_user" s) "cas_user" = Undefined) as ->; [|done].
  apply own_None. destruct (ToBoolean (sessionInfo options)).
  - rewrite lookup_delete. case_decide; [done|]. apply lookup_delete_eq.
  - apply lookup_delete_eq.
Qed.

Lemma logout_then_getSessionInfo_witness :
  @Index.getSessionInfo Sample.engine options0
    {| session := Some {[ "cas_return_to" := Str "/inbox"; "theme" := Str "dark" ]};
       query := query Sample.authenticated;
       originalUrl := originalUrl Sample.authenticated |}
  = Obj {[ "userId" := Null ]}.
Proof.
  eapply (@logout_then_getSessionInfo Sample.engine Sample.libraries Sample.configured
            options0 Sample.authenticated _ _ _).
  - reflexivity.
  - reflexivity.
  - reflexivity.
  - vm_compute. reflexivity.
Defined.

Lemma replace_double_slash_clean (s : string) (before : option ascii) :
  Index.doubled_slash before s = false →
  Index.replace_double_slash before s = s.
Proof.
  revert before. induction s as [|c s IH]; intros before Hclean; [done|].
  destruct s as [|c' s]; [done|].
  simpl in Hclean. apply orb_false_iff in Hclean as [Hhere Hrest].
  change (Index.replace_double_slash before (String c (String c' s)))
    with (if bool_decide (c = "/"%char) && bool_decide (c' = "/"%char)
             && negb (bool_decide (before = Some ":"%char))
          then String "/" (Index.replace_double_slash (Some c') s)
          else String c (Index.replace_double_slash (Some c) (String c' s))).
  rewrite Hhere. f_equal. by apply IH.
Qed.

Lemma doubled_slash_before (s : string) (before : option ascii) :
  before ≠ Some ":"%char →
  Index.doubled_slash before s = Index.doubled_slash None s.
Proof.
  intros Hne. destruct s as [|c [|c' s]]; [done..|]. simpl.
  by rewrite (bool_decide_eq_false_2 (before = Some ":"%char)).
Qed.

Lemma replace_double_slash_join (a b : string) (c : ascii) (before : option ascii) :
  c ≠ "/"%char → c ≠ ":"%char →
  Index.doubled_slash before (a +:+ String c EmptyString) = false →
  Index.doubled_slash None b = false →
  Index.replace_double_slash before ((a +:+ String c EmptyString) +:+ "//" +:+ b)
  = (a +:+ String c EmptyString) +:+ "/" +:+ b.
Proof.
  intros Hslash Hcolon Ha Hb. revert before Ha.
  induction a as [|x a IH]; intros before Ha.
  - change (Index.replace_double_slash before (String c (String "/" (String "/" b)))
            = String c (String "/" b)).
    change (Index.replace_double_slash before (String c (String "/" (String "/" b))))
      with (if bool_decide (c = "/"%char) && bool_decide ("/"%char = "/"%char)
               && negb (bool_decide (before = Some ":"%char))
            then String "/" (Index.replace_double_slash (Some "/"%char) (String "/" b))
            else String c (Index.replace_double_slash (Some c)
                             (String "/" (String "/" b)))).
    rewrite (bool_decide_eq_false_2 (c = "/"%char)) by done. simpl. f_equal.
    rewrite (bool_decide_eq_false_2 (Some c = Some ":"%char)) by congruence.
    simpl. f_equal. apply replace_double_slash_clean.
    by rewrite doubled_slash_before.
  - assert (∃ y rest, a +:+ String c EmptyString = String y rest) as (y & rest & Hrest).
    { destruct a; by eexists _, _. }
    change ((String x a +:+ String c EmptyString) +:+ "//" +:+ b)
      with (String x ((a +:+ String c EmptyString) +:+ "//" +:+ b)).
    change ((String x a +:+ String c EmptyString) +:+ "/" +:+ b)
      with (String x ((a +:+ String c EmptyString) +:+ "/" +:+ b)).
    change (String x a +:+ String c EmptyString)
      with (String x (a +:+ String c EmptyString)) in Ha.
    specialize (IH (Some x)). rewrite Hrest in *.
    simpl in Ha. apply orb_false_iff in Ha as [Hhere Hnext].
    change (String y rest +:+ "//" +:+ b) with (String y (rest +:+ "//" +:+ b)) in *.
    change (Index.replace_double_slash before
              (String x (String y (rest +:+ "//" +:+ b))))
      with (if bool_decide (x = "/"%char) && bool_decide (y = "/"%char)
               && negb (bool_decide (before = Some ":"%char))
            then String "/" (Index.replace_double_slash (Some y) (rest +:+ "//" +:+ b))
            else String x (Index.replace_double_slash (Some x)
                             (String y (rest +:+ "//" +:+ b)))).
    rewrite Hhere. f_equal. by apply IH.
Qed.

(** X19.  With a configured base URL, [getAbsoluteUrl] returns the base
    URL followed by the requested URL as it is when that string has no two
    slashes in a row other than after a colon: the slashes after the scheme
    stay. *)
Theorem getAbsoluteUrl_clean `{Engine} (backendBaseUrl : value)
    (req : Index.http_request) :
  ToBoolean backendBaseUrl = true →
  Index.doubled_slash None
    (ToString backendBaseUrl +:+ originalUrl (Index.express req)) = false →
  Index.getAbsoluteUrl backendBaseUrl req
  = Str (ToString backendBaseUrl +:+ originalUrl (Index.express req)).
Proof.
  intros Htrue Hclean. unfold Index.getAbsoluteUrl. rewrite Htrue.
  by rewrite replace_double_slash_clean.
Qed.

Lemma getAbsoluteUrl_clean_witness :
  @Index.getAbsoluteUrl Sample.engine (Str "https://app.example.org")
    {| Index.express := Sample.anonymous; Index.protocol := Str "http";
       Index.host := Str "localhost:3000" |}
  = Str (@ToString Sample.engine (Str "https://app.example.org")
         +:+ originalUrl Sample.anonymous).
Proof.
  apply (@getAbsoluteUrl_clean Sample.engine (Str "https://app.example.org")
           {| Index.express := Sample.anonymous; Index.protocol := Str "http";
              Index.host := Str "localhost:3000" |}); vm_compute; reflexivity.
Defined.

(** X20.  A base URL that ends with a slash and a requested URL that
    starts with one are joined with a single slash, when neither has two
    slashes in a row elsewhere (other than after a colon) and the base URL
    has a character other than a slash or a colon before its last slash. *)
Theorem getAbsoluteUrl_join `{Engine} (stem path : string) (c : ascii)
    (req : Index.http_request) :
  c ≠ "/"%char → c ≠ ":"%char →
  Index.doubled_slash None (stem +:+ String c EmptyString) = false →
  Index.doubled_slash None path = false →
  originalUrl (Index.express req) = "/" +:+ path →
  Index.getAbsoluteUrl (Str ((stem +:+ String c EmptyString) +:+ "/")) req
  = Str ((stem +:+ String c EmptyString) +:+ "/" +:+ path).
Proof.
  intros Hslash Hcolon Hstem Hpath Hurl. unfold Index.getAbsoluteUrl.
  assert (ToBoolean (Str ((stem +:+ String c EmptyString) +:+ "/")) = true) as ->.
  { simpl. rewrite bool_decide_eq_false_2; [done|]. by destruct stem. }
  simpl. rewrite Hurl. f_equal.
  rewrite string_app_assoc.
  change ("/" +:+ "/" +:+ path) with ("//" +:+ path).
  by apply replace_double_slash_join.
Qed.

Lemma getAbsoluteUrl_join_witness :
  @Index.getAbsoluteUrl Sample.engine
    (Str (("https://app.example.or" +:+ String "g" EmptyString) +:+ "/"))
    {| Index.express := Sample.anonymous; Index.protocol := Str "http";
       Index.host := Str "localhost:3000" |}
  = Str (("https://app.example.or" +:+ String "g" EmptyString) +:+ "/" +:+ "inbox").
Proof.
  apply (@getAbsoluteUrl_join Sample.engine "https://app.example.or" "inbox" "g"
           {| Index.express := Sample.anonymous; Index.protocol := Str "http";
              Index.host := Str "localhost:3000" |});
    try (vm_compute; reflexivity); vm_compute; discriminate.
Defined.
